(** * Weather Dashboard (main.py): a shallow embedding and its properties

    The program is a short pipeline: resolve a city through the geocoding
    endpoint, fetch the current conditions and an optional daily forecast,
    and print them.  Everything it does is JSON field access, string
    formatting, console input/output and HTTP requests.  The embedding below
    keeps that shape:

    - decoded JSON is a tree of dynamically typed values ([pyval]);
    - the built-ins the program calls on them ([dict.get], indexing, [int],
      [float], truthiness, f-string formatting) are pure functions that
      return either a value or the exception they raise;
    - the console, the keyboard and the network live in a [world] that is
      threaded through a small state-and-exception monad, so that what was
      printed and which requests were sent before a failure stay visible. *)

From Stdlib Require Import String Ascii ZArith List Bool Lia DecimalString.
From Stdlib Require DecimalPos DecimalZ.
Import ListNotations.

Local Open Scope string_scope.
Local Open Scope Z_scope.

(** ** Exceptions *)

(** The exception classes that can travel through [main]: the ones named by
    its [except] clauses and the built-in ones raised by dictionary access,
    indexing, conversions and [input].  All of them except
    [KeyboardInterrupt] derive from [Exception]. *)
Inductive exn_class :=
| HTTPError | ConnectionError | Timeout | ValueError | KeyboardInterrupt
| KeyError | TypeError | IndexError | AttributeError | EOFError
| OverflowError.

(** An exception instance: its class and the text [str(e)] shows.  For the
    exceptions raised by the interpreter itself the text is indicative (its
    wording differs between Python versions); for the ones raised by
    main.py it is the literal of the source. *)
Record exn := mk_exn { exn_cls : exn_class; exn_msg : string }.

Definition exn_class_eqb (a b : exn_class) : bool :=
  match a, b with
  | HTTPError, HTTPError | ConnectionError, ConnectionError
  | Timeout, Timeout | ValueError, ValueError
  | KeyboardInterrupt, KeyboardInterrupt | KeyError, KeyError
  | TypeError, TypeError | IndexError, IndexError
  | AttributeError, AttributeError | EOFError, EOFError
  | OverflowError, OverflowError => true
  | _, _ => false
  end.

(** [isinstance(e, Exception)]. *)
Definition is_Exception (c : exn_class) : bool :=
  negb (exn_class_eqb c KeyboardInterrupt).

(** A pure computation that may raise. *)
Definition res (A : Type) : Type := (exn + A)%type.

(** ** Dynamically typed values *)

(** Values produced by [Response.json()], over a type [F] of floats. A
    dictionary is an association list in insertion order; a key is read at
    its first binding. *)
#[local] Unset Elimination Schemes.
Inductive pyval (F : Type) : Type :=
| PNone
| PBool (b : bool)
| PInt (n : Z)
| PFloat (x : F)
| PStr (s : string)
| PList (l : list (pyval F))
| PDict (d : list (string * pyval F)).
#[local] Set Elimination Schemes.

Arguments PNone {F}.
Arguments PBool {F} b.
Arguments PInt {F} n.
Arguments PFloat {F} x.
Arguments PStr {F} s.
Arguments PList {F} l.
Arguments PDict {F} d.

(** What the interpreter provides and main.py does not define: the float
    type with its conversions and renderings, and the rendering of
    containers.  The program never computes with floats; it converts,
    compares with zero (truthiness) and formats them. *)
Class PyRuntime := {
  float : Type;
  (** [float(n)] for an int; [None] is OverflowError. *)
  float_of_Z : Z -> option float;
  (** [float(s)] for a str; [None] is ValueError. *)
  float_of_string : string -> option float;
  (** [int(x)] for a float: truncation, raising on nan and infinities. *)
  float_to_Z : float -> res Z;
  (** [x == 0.0]. *)
  float_is_zero : float -> bool;
  (** [str(x)]. *)
  float_str : float -> string;
  (** [format(x, '.<p>f')]. *)
  float_fixed : nat -> float -> string;
  (** [str(v)] for a list or a dict. *)
  container_str : pyval float -> string
}.

(** ** Strings *)

Definition string_of_Z (n : Z) : string := NilZero.string_of_int (Z.to_int n).

(** ASCII characters for which [str.isspace] holds. Strings are byte
    strings here; the non-ASCII spaces and digits of Unicode are outside the
    model. *)
Definition is_space (c : ascii) : bool :=
  let n := nat_of_ascii c in
  ((9 <=? n) && (n <=? 13) || (28 <=? n) && (n <=? 32))%nat.

Fixpoint lstrip (s : string) : string :=
  match s with
  | String c r => if is_space c then lstrip r else s
  | EmptyString => EmptyString
  end.

Fixpoint rstrip (s : string) : string :=
  match s with
  | String c r =>
      match rstrip r with
      | EmptyString => if is_space c then EmptyString else String c EmptyString
      | r' => String c r'
      end
  | EmptyString => EmptyString
  end.

(** [s.strip()]. *)
Definition strip (s : string) : string := rstrip (lstrip s).

Definition is_digit (c : ascii) : bool :=
  let n := nat_of_ascii c in ((48 <=? n) && (n <=? 57))%nat.

Definition digit_value (c : ascii) : Z := Z.of_nat (nat_of_ascii c) - 48.

(** Digits of a decimal literal; single underscores may separate digits.
    [seen] tells that the previous character was a digit. *)
Fixpoint digits_value (acc : Z) (seen : bool) (s : string) : option Z :=
  match s with
  | EmptyString => if seen then Some acc else None
  | String c r =>
      if is_digit c then digits_value (10 * acc + digit_value c) true r
      else if Ascii.eqb c "_" && seen then
        match r with
        | String d _ => if is_digit d then digits_value acc false r else None
        | EmptyString => None
        end
      else None
  end.

(** [int(s)] for a str: surrounding whitespace, an optional sign, decimal
    digits. [None] is ValueError. *)
Definition int_of_string (s : string) : option Z :=
  match strip s with
  | String "+" r => digits_value 0 false r
  | String "-" r => option_map Z.opp (digits_value 0 false r)
  | t => digits_value 0 false t
  end.

Fixpoint spaces (n : nat) : string :=
  match n with O => EmptyString | S k => String " " (spaces k) end.

(** [format(s, '<w>')] / [s.ljust(w)] and [format(s, '><w>')] / [s.rjust(w)]:
    padding only, never truncation. *)
Definition ljust (w : nat) (s : string) : string :=
  s ++ spaces (w - String.length s).

Definition rjust (w : nat) (s : string) : string :=
  spaces (w - String.length s) ++ s.

(** [needle in hay] for two strings. *)
Fixpoint str_contains (needle hay : string) : bool :=
  prefix needle hay ||
  match hay with
  | String _ r => str_contains needle r
  | EmptyString => false
  end.

(** [sep.join(l)]. *)
Fixpoint join (sep : string) (l : list string) : string :=
  match l with
  | [] => EmptyString
  | [x] => x
  | x :: r => x ++ sep ++ join sep r
  end.

(** The substring relation the rendering properties are stated with. *)
Definition occurs_in (sub s : string) : Prop :=
  exists pre post : string, s = pre ++ sub ++ post.

(** ** Built-in operations on values *)

Abbreviation value := (pyval float).

Section Builtins.
Context {RT : PyRuntime}.

Definition raise_res {A : Type} (c : exn_class) (msg : string) : res A :=
  inl (mk_exn c msg).

(** The name [type(v).__name__] shows in error texts. *)
Definition type_name (v : value) : string :=
  match v with
  | PNone => "NoneType" | PBool _ => "bool" | PInt _ => "int"
  | PFloat _ => "float" | PStr _ => "str" | PList _ => "list"
  | PDict _ => "dict"
  end.

(** [bool(v)], the test behind [if v], [not v] and [v or w]. *)
Definition truthy (v : value) : bool :=
  match v with
  | PNone => false
  | PBool b => b
  | PInt n => negb (n =? 0)
  | PFloat x => negb (float_is_zero x)
  | PStr s => negb (s =? "")%string
  | PList l => match l with [] => false | _ => true end
  | PDict d => match d with [] => false | _ => true end
  end.

(** [str(v)], which is also what a bare [{v}] field of an f-string shows. *)
Definition py_str (v : value) : string :=
  match v with
  | PNone => "None"
  | PBool true => "True"
  | PBool false => "False"
  | PInt n => string_of_Z n
  | PFloat x => float_str x
  | PStr s => s
  | PList _ | PDict _ => container_str v
  end.

(** [int(v)]. *)
Definition py_int (v : value) : res Z :=
  match v with
  | PInt n => inr n
  | PBool b => inr (if b then 1 else 0)
  | PFloat x => float_to_Z x
  | PStr s =>
      match int_of_string s with
      | Some n => inr n
      | None =>
          raise_res ValueError
            ("invalid literal for int() with base 10: '" ++ s ++ "'")
      end
  | _ =>
      raise_res TypeError
        ("int() argument must be a string, a bytes-like object or a real number, not '"
           ++ type_name v ++ "'")
  end.

Definition float_of_int (n : Z) : res float :=
  match float_of_Z n with
  | Some x => inr x
  | None => raise_res OverflowError "int too large to convert to float"
  end.

(** [float(v)]. *)
Definition py_float (v : value) : res float :=
  match v with
  | PFloat x => inr x
  | PInt n => float_of_int n
  | PBool b => float_of_int (if b then 1 else 0)
  | PStr s =>
      match float_of_string s with
      | Some x => inr x
      | None =>
          raise_res ValueError
            ("could not convert string to float: '" ++ s ++ "'")
      end
  | _ =>
      raise_res TypeError
        ("float() argument must be a string or a real number, not '"
           ++ type_name v ++ "'")
  end.

(** Lookup in a dictionary. *)
Fixpoint dict_lookup (k : string) (d : list (string * value)) : option value :=
  match d with
  | [] => None
  | (k', v) :: r => if (k =? k')%string then Some v else dict_lookup k r
  end.

(** [v.get(k, default)]: only dictionaries have the method. *)
Definition get_or (v : value) (k : string) (default : value) : res value :=
  match v with
  | PDict d =>
      inr (match dict_lookup k d with Some x => x | None => default end)
  | _ =>
      raise_res AttributeError
        ("'" ++ type_name v ++ "' object has no attribute 'get'")
  end.

(** [v[k]] with a string key. *)
Definition getitem_key (v : value) (k : string) : res value :=
  match v with
  | PDict d =>
      match dict_lookup k d with
      | Some x => inr x
      | None => raise_res KeyError ("'" ++ k ++ "'")
      end
  | PStr _ => raise_res TypeError "string indices must be integers, not 'str'"
  | PList _ =>
      raise_res TypeError "list indices must be integers or slices, not str"
  | _ =>
      raise_res TypeError ("'" ++ type_name v ++ "' object is not subscriptable")
  end.

(** [v[i]] with a non-negative integer index. *)
Definition getitem_index (v : value) (i : nat) : res value :=
  match v with
  | PList l =>
      match nth_error l i with
      | Some x => inr x
      | None => raise_res IndexError "list index out of range"
      end
  | PStr s =>
      match String.get i s with
      | Some c => inr (PStr (String c EmptyString))
      | None => raise_res IndexError "string index out of range"
      end
  | PDict _ => raise_res KeyError (string_of_Z (Z.of_nat i))
  | _ =>
      raise_res TypeError ("'" ++ type_name v ++ "' object is not subscriptable")
  end.

(** [len(v)]. *)
Definition py_len (v : value) : res nat :=
  match v with
  | PList l => inr (List.length l)
  | PStr s => inr (String.length s)
  | PDict d => inr (List.length d)
  | _ =>
      raise_res TypeError ("object of type '" ++ type_name v ++ "' has no len()")
  end.

Definition is_str (s : string) (v : value) : bool :=
  match v with PStr t => (s =? t)%string | _ => false end.

(** [k in v] for a string [k]. *)
Definition contains_key (k : string) (v : value) : res bool :=
  match v with
  | PDict d => inr (match dict_lookup k d with Some _ => true | None => false end)
  | PList l => inr (existsb (is_str k) l)
  | PStr s => inr (str_contains k s)
  | _ =>
      raise_res TypeError
        ("argument of type '" ++ type_name v ++ "' is not iterable")
  end.

(** An f-string field [{v:><w>.<p>f}]: fixed-point notation, right-aligned.
    Numbers only. *)
Definition format_fixed (w p : nat) (v : value) : res string :=
  match v with
  | PFloat x => inr (rjust w (float_fixed p x))
  | PInt n =>
      match float_of_int n with
      | inr x => inr (rjust w (float_fixed p x))
      | inl e => inl e
      end
  | PBool b =>
      match float_of_int (if b then 1 else 0) with
      | inr x => inr (rjust w (float_fixed p x))
      | inl e => inl e
      end
  | PStr _ =>
      raise_res ValueError "Unknown format code 'f' for object of type 'str'"
  | _ =>
      raise_res TypeError
        ("unsupported format string passed to " ++ type_name v ++ ".__format__")
  end.

(** An f-string field [{v:><w>}]: the default rendering, right-aligned. *)
Definition format_right (w : nat) (v : value) : res string :=
  match v with
  | PInt n => inr (rjust w (string_of_Z n))
  | PBool b => inr (rjust w (if b then "1" else "0"))
  | PFloat x => inr (rjust w (float_str x))
  | PStr s => inr (rjust w s)
  | _ =>
      raise_res TypeError
        ("unsupported format string passed to " ++ type_name v ++ ".__format__")
  end.

End Builtins.

(** ** The world: console, keyboard and network *)

Section World.
Context {RT : PyRuntime}.

(** What [requests.get(url, params=..., timeout=...)] sends. *)
Record request := mk_request {
  req_url : string;
  req_params : list (string * value);
  req_timeout : float
}.

(** What comes back: the status code, the text of the HTTPError that
    [raise_for_status] builds from it, and the body, either decoded JSON or
    the text of the decoding error [json()] raises (a ValueError). *)
Record response := mk_response {
  status_code : Z;
  status_text : string;
  json_body : string + value
}.

(** [requests.get] returns a response or raises (connection failure,
    timeout, an interrupt while the call is in flight, ...). *)
Inductive http_outcome :=
| Responded (r : response)
| Failed (e : exn).

(** One entry per [print] call (its text, without the final newline) and per
    prompt written by [input]. *)
Inductive console_event :=
| Printed (text : string)
| Prompted (prompt : string).

(** What the user does at a prompt; an exhausted list is end of input. *)
Inductive keyboard_event :=
| Line (s : string)
| CtrlC.

(** The server answers a request knowing the requests sent before it. *)
Record world := mk_world {
  keyboard : list keyboard_event;
  console : list console_event;
  server : list request -> request -> http_outcome;
  sent : list request
}.

(** Result of running a statement: a value or a raised exception. *)
Inductive outcome (A : Type) : Type :=
| Val (a : A)
| Exc (e : exn).
Arguments Val {A} a.
Arguments Exc {A} e.

Definition M (A : Type) : Type := world -> outcome A * world.

Definition ret {A : Type} (a : A) : M A := fun w => (Val a, w).

Definition bind {A B : Type} (m : M A) (k : A -> M B) : M B :=
  fun w =>
    match m w with
    | (Val a, w') => k a w'
    | (Exc e, w') => (Exc e, w')
    end.

Definition raise {A : Type} (c : exn_class) (msg : string) : M A :=
  fun w => (Exc (mk_exn c msg), w).

Definition lift {A : Type} (r : res A) : M A :=
  fun w => match r with inr a => (Val a, w) | inl e => (Exc e, w) end.

(** The target of an [except] clause: a class, or [Exception] itself. *)
Inductive except_target :=
| Class (c : exn_class)
| AnyException.

Definition isinstance (e : exn) (t : except_target) : bool :=
  match t with
  | Class c => exn_class_eqb (exn_cls e) c
  | AnyException => is_Exception (exn_cls e)
  end.

(** The handler of the first clause that matches, as [try ... except] picks
    it. *)
Fixpoint select_clause {A : Type}
    (clauses : list (except_target * (exn -> M A))) (e : exn) : option (M A) :=
  match clauses with
  | [] => None
  | (t, h) :: rest => if isinstance e t then Some (h e) else select_clause rest e
  end.

Definition try_except {A : Type} (body : M A)
    (clauses : list (except_target * (exn -> M A))) : M A :=
  fun w =>
    match body w with
    | (Exc e, w') =>
        match select_clause clauses e with
        | Some h => h w'
        | None => (Exc e, w')
        end
    | r => r
    end.

(** [for x in l: body(x)]. *)
Fixpoint for_each {A : Type} (l : list A) (body : A -> M unit) : M unit :=
  match l with
  | [] => ret tt
  | x :: r => bind (body x) (fun _ => for_each r body)
  end.

(** [print(text)]. *)
Definition print (text : string) : M unit :=
  fun w =>
    (Val tt,
     mk_world (keyboard w) (console w ++ [Printed text])%list (server w) (sent w)).

(** [print(a, b)]: the arguments separated by one space. *)
Definition print2 (a b : string) : M unit := print (a ++ " " ++ b).

(** [input(prompt)]: writes the prompt, then reads one line. *)
Definition input (prompt : string) : M string :=
  fun w =>
    let shown := (console w ++ [Prompted prompt])%list in
    match keyboard w with
    | Line s :: rest => (Val s, mk_world rest shown (server w) (sent w))
    | CtrlC :: rest =>
        (Exc (mk_exn KeyboardInterrupt ""),
         mk_world rest shown (server w) (sent w))
    | [] =>
        (Exc (mk_exn EOFError "EOF when reading a line"),
         mk_world [] shown (server w) (sent w))
    end.

(** [requests.get]: the request is recorded, the server decides. *)
Definition requests_get (url : string) (params : list (string * value))
    (timeout : float) : M response :=
  fun w =>
    let rq := mk_request url params timeout in
    let w' := mk_world (keyboard w) (console w) (server w) (sent w ++ [rq])%list in
    match server w (sent w) rq with
    | Responded r => (Val r, w')
    | Failed e => (Exc e, w')
    end.

(** [r.raise_for_status()] of the requests library: an HTTPError for the
    4xx and 5xx status codes. *)
Definition raise_for_status (r : response) : M unit :=
  if (400 <=? status_code r) && (status_code r <? 600)
  then raise HTTPError (status_text r)
  else ret tt.

(** [r.json()]. *)
Definition json (r : response) : M value :=
  match json_body r with
  | inr v => ret v
  | inl msg => raise ValueError msg
  end.

End World.

Arguments Val {A} a.
Arguments Exc {A} e.

Declare Scope py_scope.
Delimit Scope py_scope with py.
Notation "x <- c1 ;; c2" := (bind c1 (fun x => c2))
  (at level 61, c1 at next level, right associativity) : py_scope.
Notation "c1 ;; c2" := (bind c1 (fun _ => c2))
  (at level 61, right associativity) : py_scope.
Local Open Scope py_scope.

(** ** main.py *)

Definition GEOCODE_URL : string := "https://geocoding-api.open-meteo.com/v1/search".
Definition WEATHER_URL : string := "https://api.open-meteo.com/v1/forecast".

(** Open-Meteo weather codes and their texts, in the order of the source. *)
Definition WEATHER_CODE_MAP : list (Z * string) :=
  [ (0, "Clear sky");
    (1, "Mainly clear"); (2, "Partly cloudy"); (3, "Overcast");
    (45, "Fog"); (48, "Depositing rime fog");
    (51, "Light drizzle"); (53, "Moderate drizzle"); (55, "Dense drizzle");
    (56, "Light freezing drizzle"); (57, "Dense freezing drizzle");
    (61, "Slight rain"); (63, "Moderate rain"); (65, "Heavy rain");
    (66, "Light freezing rain"); (67, "Heavy freezing rain");
    (71, "Slight snow"); (73, "Moderate snow"); (75, "Heavy snow");
    (77, "Snow grains");
    (80, "Slight rain showers"); (81, "Moderate rain showers");
    (82, "Violent rain showers");
    (85, "Slight snow showers"); (86, "Heavy snow showers");
    (95, "Thunderstorm"); (96, "Thunderstorm (slight hail)");
    (99, "Thunderstorm (heavy hail)") ].

(** [table.get(code)] on a dictionary with integer keys. *)
Fixpoint code_lookup (code : Z) (table : list (Z * string)) : option string :=
  match table with
  | [] => None
  | (k, text) :: r => if code =? k then Some text else code_lookup code r
  end.

(** [WeatherApp.describe_code]. *)
Definition describe_code (code : Z) : string :=
  match code_lookup code WEATHER_CODE_MAP with
  | Some text => text
  | None => "Code " ++ string_of_Z code
  end.

(** The newline character of the ["\n— ... —"] headings. *)
Definition nl : string := String (ascii_of_nat 10) EmptyString.

Section App.
Context {RT : PyRuntime}.

Record WeatherApp := mk_app { timeout : float }.

(** [WeatherApp.geocode_city]: latitude, longitude, resolved name and
    country code of the first match. *)
Definition geocode_city (self : WeatherApp) (city : string)
    : M (float * float * string * value) :=
  let params :=
    [("name", PStr city); ("count", PInt 1);
     ("language", PStr "en"); ("format", PStr "json")] in
  r <- requests_get GEOCODE_URL params (timeout self) ;;
  raise_for_status r ;;
  data <- json r ;;
  found <- lift (get_or data "results" PNone) ;;
  let results := if truthy found then found else PList [] in
  if negb (truthy results) then
    raise ValueError ("City '" ++ city ++ "' not found.")
  else
    top <- lift (getitem_index results 0) ;;
    lat_v <- lift (getitem_key top "latitude") ;;
    lat <- lift (py_float lat_v) ;;
    lon_v <- lift (getitem_key top "longitude") ;;
    lon <- lift (py_float lon_v) ;;
    name_v <- lift (get_or top "name" PNone) ;;
    let name := py_str name_v in
    cc <- lift (get_or top "country_code" PNone) ;;
    admin1 <- lift (get_or top "admin1" PNone) ;;
    if truthy admin1 then
      admin1_v <- lift (getitem_key top "admin1") ;;
      ret (lat, lon, name ++ ", " ++ py_str admin1_v, cc)
    else
      ret (lat, lon, name, cc).

(** [WeatherApp.get_current_weather]. *)
Definition get_current_weather (self : WeatherApp) (lat lon : float)
    : M value :=
  let params :=
    [("latitude", PFloat lat); ("longitude", PFloat lon);
     ("current_weather", PStr "true"); ("timezone", PStr "auto")] in
  r <- requests_get WEATHER_URL params (timeout self) ;;
  raise_for_status r ;;
  data <- json r ;;
  present <- lift (contains_key "current_weather" data) ;;
  if negb present then
    raise ValueError "Weather data missing from API response."
  else
    lift (getitem_key data "current_weather").

Definition daily_fields : list string :=
  ["weathercode"; "temperature_2m_max"; "temperature_2m_min";
   "precipitation_sum"; "windspeed_10m_max"; "winddirection_10m_dominant"].

Definition forecast_params (lat lon : float) (days : Z)
    : list (string * value) :=
  [("latitude", PFloat lat); ("longitude", PFloat lon);
   ("daily", PStr (join "," daily_fields));
   ("forecast_days", PInt days); ("timezone", PStr "auto")].

(** [WeatherApp.get_daily_forecast]. *)
Definition get_daily_forecast (self : WeatherApp) (lat lon : float) (days : Z)
    : M value :=
  if (days <? 1) || (days >? 16) then
    raise ValueError "Forecast days must be between 1 and 16."
  else
    let params := forecast_params lat lon days in
    r <- requests_get WEATHER_URL params (timeout self) ;;
    raise_for_status r ;;
    data <- json r ;;
    present <- lift (contains_key "daily" data) ;;
    if negb present then
      raise ValueError "Daily forecast missing from API response."
    else
      lift (getitem_key data "daily").

(** The six lines [print_current] writes once the fields are read. *)
Definition current_lines (city_label : string) (lat lon : float)
    (temp wind : value) (desc : string) : list string :=
  [ nl ++ "— Current Weather —";
    "Location   : " ++ city_label;
    "Latitude   : " ++ float_fixed 4 lat ++ ", Longitude: " ++ float_fixed 4 lon;
    "Temperature: " ++ py_str temp ++ " °C";
    "Windspeed  : " ++ py_str wind ++ " km/h";
    "Condition  : " ++ desc ].

(** [WeatherApp.print_current]. *)
Definition print_current (self : WeatherApp) (city_label : string)
    (lat lon : float) (cw : value) : M unit :=
  temp <- lift (get_or cw "temperature" PNone) ;;
  wind <- lift (get_or cw "windspeed" PNone) ;;
  wcode_v <- lift (get_or cw "weathercode" (PInt (-999))) ;;
  wcode <- lift (py_int wcode_v) ;;
  let desc := describe_code wcode in
  for_each (current_lines city_label lat lon temp wind desc) print.

(** The line of one forecast day: the f-string of [print_forecast], its
    fields read and formatted from left to right. *)
Definition forecast_line (desc : string)
    (dates tmax tmin psum wmax wdir : value) (i : nat) : res string :=
  match getitem_index dates i with inl e => inl e | inr date =>
  match getitem_index tmin i with inl e => inl e | inr lo_v =>
  match format_fixed 5 1 lo_v with inl e => inl e | inr lo =>
  match getitem_index tmax i with inl e => inl e | inr hi_v =>
  match format_fixed 5 1 hi_v with inl e => inl e | inr hi =>
  match getitem_index psum i with inl e => inl e | inr prec_v =>
  match format_fixed 4 1 prec_v with inl e => inl e | inr prec =>
  match getitem_index wmax i with inl e => inl e | inr wind_v =>
  match format_fixed 4 0 wind_v with inl e => inl e | inr wind =>
  match getitem_index wdir i with inl e => inl e | inr dir_v =>
  match format_right 3 dir_v with inl e => inl e | inr dir =>
    inr (py_str date ++ " | " ++ ljust 28 desc ++ " | "
         ++ "min " ++ lo ++ "°C  max " ++ hi ++ "°C  "
         ++ "prec " ++ prec ++ " mm  wind " ++ wind ++ " km/h dir "
         ++ dir ++ "°")
  end end end end end end end end end end end.

(** [WeatherApp.print_forecast]. *)
Definition print_forecast (self : WeatherApp) (daily : value) : M unit :=
  print (nl ++ "— Daily Forecast —") ;;
  dates <- lift (get_or daily "time" (PList [])) ;;
  codes <- lift (get_or daily "weathercode" (PList [])) ;;
  tmax <- lift (get_or daily "temperature_2m_max" (PList [])) ;;
  tmin <- lift (get_or daily "temperature_2m_min" (PList [])) ;;
  psum <- lift (get_or daily "precipitation_sum" (PList [])) ;;
  wmax <- lift (get_or daily "windspeed_10m_max" (PList [])) ;;
  wdir <- lift (get_or daily "winddirection_10m_dominant" (PList [])) ;;
  n <- lift (py_len dates) ;;
  for_each (seq 0 n) (fun i =>
    code_v <- lift (getitem_index codes i) ;;
    code <- lift (py_int code_v) ;;
    let desc := describe_code code in
    line <- lift (forecast_line desc dates tmax tmin psum wmax wdir i) ;;
    print line).

(** The parsed command line ([parse_args]): [--city], [--forecast],
    [--timeout]. *)
Record Args := mk_args {
  city : option string;
  forecast : option Z;
  timeout_arg : float
}.

Definition retry_text : string := "Please enter an integer between 0 and 16.".
Definition days_prompt : string := "How many forecast days (0 for none, 1–16)? ".

(** The [while True] loop of [ask_forecast_days_interactively]. Every round
    reads one keyboard event, so the rounds are bounded by the events left;
    [rounds] is that bound. [int] of a str raises nothing but ValueError, the
    exception the loop passes over. *)
Fixpoint ask_loop (rounds : nat) : M Z :=
  match rounds with
  | O => raise EOFError "EOF when reading a line"
  | S k =>
      line <- input days_prompt ;;
      let stripped := strip line in
      let days_str := if (stripped =? "")%string then "0" else stripped in
      match int_of_string days_str with
      | Some days =>
          if (0 <=? days) && (days <=? 16) then ret days
          else print retry_text ;; ask_loop k
      | None => print retry_text ;; ask_loop k
      end
  end.

(** [ask_forecast_days_interactively]. *)
Definition ask_forecast_days_interactively : M Z :=
  fun w => ask_loop (S (List.length (keyboard w))) w.

(** [main], lines 192-202: resolve, report the current weather, and the
    forecast when asked for. *)
Definition city_label_of (resolved : string) (cc : value) : string :=
  if negb (truthy cc) then resolved else resolved ++ " (" ++ py_str cc ++ ")".

Definition lookup_and_report (app : WeatherApp) (city_input : string)
    (forecast_days : Z) : M unit :=
  located <- geocode_city app city_input ;;
  let '(lat, lon, resolved, cc) := located in
  let city_label := city_label_of resolved cc in
  cw <- get_current_weather app lat lon ;;
  print_current app city_label lat lon cw ;;
  if forecast_days >? 0 then
    daily <- get_daily_forecast app lat lon forecast_days ;;
    print_forecast app daily
  else ret tt.

(** [main], lines 175-181: the city from the command line or the prompt.
    [None] is the [return] after "No city entered". *)
Definition acquire_city (args : Args) : M (option string) :=
  let prompted :=
    line <- input "Enter a city name: " ;;
    let city_input := strip line in
    if (city_input =? "")%string then
      print "No city entered. Exiting." ;; ret None
    else ret (Some city_input) in
  match city args with
  | Some c => if negb (c =? "")%string then ret (Some (strip c)) else prompted
  | None => prompted
  end.

(** [main], lines 184-190: the day count from the command line or the
    prompt. [None] is the [return] after the range error. *)
Definition acquire_forecast_days (args : Args) : M (option Z) :=
  match forecast args with
  | None => forecast_days <- ask_forecast_days_interactively ;; ret (Some forecast_days)
  | Some n =>
      if negb ((0 <=? n) && (n <=? 16)) then
        print "Error: --forecast must be between 0 and 16." ;; ret None
      else ret (Some n)
  end.

(** The [except] clauses of [main], in their order. *)
Definition main_clauses : list (except_target * (exn -> M unit)) :=
  [ (Class HTTPError, fun e => print2 "HTTP error from API:" (exn_msg e));
    (Class ConnectionError,
       fun _ => print "Network error: please check your internet connection.");
    (Class Timeout, fun _ => print "Request timed out. Try again.");
    (Class ValueError, fun e => print2 "Error:" (exn_msg e));
    (Class KeyboardInterrupt, fun _ => print (nl ++ "Cancelled."));
    (AnyException, fun e => print2 "Unexpected error:" (exn_msg e)) ].

(** The body of the [try] block of [main]; a step that returned ends it. *)
Definition main_steps (args : Args) (app : WeatherApp) : M unit :=
  city_opt <- acquire_city args ;;
  match city_opt with
  | None => ret tt
  | Some city_input =>
      days_opt <- acquire_forecast_days args ;;
      match days_opt with
      | None => ret tt
      | Some forecast_days => lookup_and_report app city_input forecast_days
      end
  end.

(** [main], after [parse_args]. *)
Definition main (args : Args) : M unit :=
  let app := mk_app (timeout_arg args) in
  try_except (main_steps args app) main_clauses.

End App.

(** ** A runtime to run the model on examples

    Floats restricted to the integral values of moderate size, for which
    [str(x)] is the integer followed by [.0] and the fixed-point notation
    pads with zeros.  Containers are shown by a placeholder. *)
Module IntegralFloats.

Definition zeros (p : nat) : string :=
  match p with
  | O => EmptyString
  | S _ => "." ++ String.concat "" (repeat "0" p)
  end.

#[export] Instance runtime : PyRuntime := {|
  float := Z;
  float_of_Z := fun n => Some n;
  float_of_string := int_of_string;
  float_to_Z := fun x => inr x;
  float_is_zero := fun x => x =? 0;
  float_str := fun x => string_of_Z x ++ ".0";
  float_fixed := fun p x => string_of_Z x ++ zeros p;
  container_str := fun _ => "<container>"
|}.

End IntegralFloats.

(** ** Vocabulary of the statements *)

Section Vocabulary.
Context {RT : PyRuntime}.

(** The world after more console events, more requests, or with the
    keyboard events that remain. *)
Definition shown (w : world) (events : list console_event) : world :=
  mk_world (keyboard w) (console w ++ events)%list (server w) (sent w).

Definition requested (w : world) (rqs : list request) : world :=
  mk_world (keyboard w) (console w) (server w) (sent w ++ rqs)%list.

Definition typed (w : world) (rest : list keyboard_event) : world :=
  mk_world rest (console w) (server w) (sent w).

(** A response with a 2xx status. *)
Definition successful (r : response) : Prop :=
  200 <= status_code r < 300.

(** [d.get(k)], with [None] for a missing key. *)
Definition field (k : string) (d : list (string * value)) : value :=
  match dict_lookup k d with Some v => v | None => PNone end.

(** The requests the three operations send. *)
Definition geocode_request (app : WeatherApp) (city : string) : request :=
  mk_request GEOCODE_URL
    [("name", PStr city); ("count", PInt 1);
     ("language", PStr "en"); ("format", PStr "json")]
    (timeout app).

Definition current_request (app : WeatherApp) (lat lon : float) : request :=
  mk_request WEATHER_URL
    [("latitude", PFloat lat); ("longitude", PFloat lon);
     ("current_weather", PStr "true"); ("timezone", PStr "auto")]
    (timeout app).

Definition forecast_request (app : WeatherApp) (lat lon : float) (days : Z)
    : request :=
  mk_request WEATHER_URL (forecast_params lat lon days) (timeout app).

(** The display name of a geocoding entry: its name, followed by a comma
    and [admin1] when that field holds something truthy (a non-empty
    text). *)
Definition display_name (top : list (string * value)) : string :=
  if truthy (field "admin1" top)
  then py_str (field "name" top) ++ ", " ++ py_str (field "admin1" top)
  else py_str (field "name" top).

(** The heading lines of the two blocks. *)
Definition current_heading : string := nl ++ "— Current Weather —".
Definition forecast_heading : string := nl ++ "— Daily Forecast —".

(** The forecast line of a day whose fields have the types the data model
    gives them. *)
Definition day_line (date desc : string) (lo hi prec wind : float) (dir : Z)
    : string :=
  date ++ " | " ++ ljust 28 desc ++ " | "
  ++ "min " ++ rjust 5 (float_fixed 1 lo)
  ++ "°C  max " ++ rjust 5 (float_fixed 1 hi) ++ "°C  "
  ++ "prec " ++ rjust 4 (float_fixed 1 prec)
  ++ " mm  wind " ++ rjust 4 (float_fixed 0 wind)
  ++ " km/h dir " ++ rjust 3 (string_of_Z dir) ++ "°".

(** What a forecast line has to show of its day. *)
Definition shows_day (date desc line : string) : Prop :=
  occurs_in date line /\ occurs_in desc line
  /\ occurs_in "min" line /\ occurs_in "max" line.

(** The text handed to [int] for a line typed at the day-count prompt. *)
Definition entered (line : string) : string :=
  if (strip line =? "")%string then "0" else strip line.

(** The one line a failure is reported with, by category: upstream error,
    transport, timeout, the three ValueError conditions (not found, bad
    parameter, malformed response), cancelled, and unexpected. *)
Definition failure_text (e : exn) : string :=
  match exn_cls e with
  | HTTPError => "HTTP error from API: " ++ exn_msg e
  | ConnectionError => "Network error: please check your internet connection."
  | Timeout => "Request timed out. Try again."
  | ValueError => "Error: " ++ exn_msg e
  | KeyboardInterrupt => nl ++ "Cancelled."
  | _ => "Unexpected error: " ++ exn_msg e
  end.

(** A request for a daily forecast: one with a [forecast_days] parameter. *)
Definition is_forecast_request (rq : request) : bool :=
  match dict_lookup "forecast_days" (req_params rq) with
  | Some _ => true
  | None => false
  end.

(** A statement that sends nothing, and one that only adds to the
    console. *)
Definition offline {A : Type} (m : M A) : Prop :=
  forall w : world, sent (snd (m w)) = sent w.

Definition appending {A : Type} (m : M A) : Prop :=
  forall w : world,
    exists events : list console_event,
      console (snd (m w)) = (console w ++ events)%list.

(** The steps of a session that asks for no forecast. *)
Definition current_only (app : WeatherApp) (city_input : string) : M unit :=
  located <- geocode_city app city_input ;;
  let '(lat, lon, resolved, cc) := located in
  cw <- get_current_weather app lat lon ;;
  print_current app (city_label_of resolved cc) lat lon cw.

End Vocabulary.

(** ** Example sessions *)

Module Examples.
Import IntegralFloats.

Definition app : WeatherApp := mk_app 10.

Definition ok (body : value) : http_outcome :=
  Responded (mk_response 200 "" (inr body)).

Definition prague_entry : list (string * value) :=
  [("latitude", PFloat 50); ("longitude", PFloat 14); ("name", PStr "Prague");
   ("admin1", PStr "Prague"); ("country_code", PStr "CZ")].

(** An entry whose [admin1] field is there and empty. *)
Definition bare_entry : list (string * value) :=
  [("latitude", PFloat 50); ("longitude", PFloat 14); ("name", PStr "Prague");
   ("admin1", PStr "")].

Definition current_section : list (string * value) :=
  [("temperature", PFloat 10); ("windspeed", PFloat 5); ("weathercode", PInt 3)].

Definition daily_section : list (string * value) :=
  [("time", PList [PStr "2025-01-01"; PStr "2025-01-02"]);
   ("weathercode", PList [PInt 3; PInt 1]);
   ("temperature_2m_max", PList [PFloat 10; PFloat 11]);
   ("temperature_2m_min", PList [PFloat 2; PFloat 3]);
   ("precipitation_sum", PList [PFloat 0; PFloat 1]);
   ("windspeed_10m_max", PList [PFloat 20; PFloat 15]);
   ("winddirection_10m_dominant", PList [PInt 180; PInt 200])].

(** A server that answers every request with the same outcome. *)
Definition always (o : http_outcome) (_ : list request) (_ : request)
    : http_outcome := o.

(** A server that answers by the URL and the kind of the request. *)
Definition upstream (entry : list (string * value))
    (_ : list request) (rq : request) : http_outcome :=
  if (req_url rq =? GEOCODE_URL)%string then
    ok (PDict [("results", PList [PDict entry])])
  else
    match dict_lookup "daily" (req_params rq) with
    | Some _ => ok (PDict [("daily", PDict daily_section)])
    | None => ok (PDict [("current_weather", PDict current_section)])
    end.

Definition quiet (srv : list request -> request -> http_outcome) : world :=
  mk_world [] [] srv [].

(** A world whose server answers everything with status 500. *)
Definition failing : world :=
  quiet (always (Responded (mk_response 500 "500 Server Error" (inl "")))).

(** A command line with the default timeout. *)
Definition cli (c : option string) (f : option Z) : Args := mk_args c f 10.

End Examples.

(** ** Vocabulary of the further statements *)

Section SessionVocabulary.
Context {RT : PyRuntime}.

(** A JSON value that is no container: null, a boolean or a number. *)
Definition scalar (v : value) : bool :=
  match v with
  | PNone | PBool _ | PInt _ | PFloat _ => true
  | PStr _ | PList _ | PDict _ => false
  end.

(** A line the day-count prompt turns down, and one it takes as [d]. *)
Definition rejected (line : string) : Prop :=
  match int_of_string (entered line) with
  | Some n => n < 0 \/ 16 < n
  | None => True
  end.

Definition accepted (line : string) (d : Z) : Prop :=
  int_of_string (entered line) = Some d /\ 0 <= d <= 16.

(** What the console gains in [k] turned-down rounds of the prompt. *)
Fixpoint retries (k : nat) : list console_event :=
  match k with
  | O => []
  | S k' => Prompted days_prompt :: Printed retry_text :: retries k'
  end.

(** A statement that reads nothing from the keyboard and writes to the
    console through [print] only. *)
Definition unattended {A : Type} (m : M A) : Prop :=
  forall w : world,
    keyboard (snd (m w)) = keyboard w
    /\ exists texts : list string,
         console (snd (m w)) = (console w ++ map Printed texts)%list.

(** One round of the loop of [print_forecast] over sequences of the
    declared types. *)
Definition typed_round (dates : list string) (codes : list Z)
    (tmax tmin psum wmax : list float) (wdir : list Z) (i : nat) : M unit :=
  code_v <- lift (getitem_index (PList (map PInt codes)) i) ;;
  code <- lift (py_int code_v) ;;
  line <- lift (forecast_line (describe_code code)
                  (PList (map PStr dates)) (PList (map PFloat tmax))
                  (PList (map PFloat tmin)) (PList (map PFloat psum))
                  (PList (map PFloat wmax)) (PList (map PInt wdir)) i) ;;
  print line.

(** The requests of a whole session, in their order. *)
Definition session_requests (app : WeatherApp) (city_input : string)
    (lat lon : float) (days : Z) : list request :=
  [geocode_request app city_input; current_request app lat lon;
   forecast_request app lat lon days].

(** The geocoder answers the request for [city] with a successful response
    whose first entry is the object [top], with coordinates [lat], [lon]. *)
Definition geocoder_answers (w : world) (app : WeatherApp) (city : string)
    (top : list (string * value)) (lat lon : float) : Prop :=
  exists (r : response) (body : list (string * value)) (rest : list value)
         (lat_v lon_v : value),
    server w (sent w) (geocode_request app city) = Responded r
    /\ successful r
    /\ json_body r = inr (PDict body)
    /\ dict_lookup "results" body = Some (PList (PDict top :: rest))
    /\ dict_lookup "latitude" top = Some lat_v /\ py_float lat_v = inr lat
    /\ dict_lookup "longitude" top = Some lon_v /\ py_float lon_v = inr lon.

(** After the requests [log], the weather endpoint answers the
    current-weather request with a successful response whose
    [current_weather] object is [section], with a usable weather code. *)
Definition weather_answers (w : world) (log : list request)
    (app : WeatherApp) (lat lon : float) (section : list (string * value))
    (code : Z) : Prop :=
  exists (r : response) (body : list (string * value)),
    server w log (current_request app lat lon) = Responded r
    /\ successful r
    /\ json_body r = inr (PDict body)
    /\ dict_lookup "current_weather" body = Some (PDict section)
    /\ py_int (match dict_lookup "weathercode" section with
               | Some v => v
               | None => PInt (-999)
               end) = inr code.

(** After the requests [log], the weather endpoint answers the forecast
    request with a successful response whose [daily] object holds the
    seven sequences, of the declared types and of one length. *)
Definition forecast_answers (w : world) (log : list request)
    (app : WeatherApp) (lat lon : float) (days : Z)
    (dates : list string) (codes : list Z)
    (tmax tmin psum wmax : list float) (wdir : list Z) : Prop :=
  exists (r : response) (body d : list (string * value)),
    server w log (forecast_request app lat lon days) = Responded r
    /\ successful r
    /\ json_body r = inr (PDict body)
    /\ dict_lookup "daily" body = Some (PDict d)
    /\ dict_lookup "time" d = Some (PList (map PStr dates))
    /\ dict_lookup "weathercode" d = Some (PList (map PInt codes))
    /\ dict_lookup "temperature_2m_max" d = Some (PList (map PFloat tmax))
    /\ dict_lookup "temperature_2m_min" d = Some (PList (map PFloat tmin))
    /\ dict_lookup "precipitation_sum" d = Some (PList (map PFloat psum))
    /\ dict_lookup "windspeed_10m_max" d = Some (PList (map PFloat wmax))
    /\ dict_lookup "winddirection_10m_dominant" d
       = Some (PList (map PInt wdir))
    /\ List.length codes = List.length dates
    /\ List.length tmax = List.length dates
    /\ List.length tmin = List.length dates
    /\ List.length psum = List.length dates
    /\ List.length wmax = List.length dates
    /\ List.length wdir = List.length dates.

(** The six lines of the current-weather block of a session. *)
Definition session_current_lines (top section : list (string * value))
    (lat lon : float) (code : Z) : list string :=
  current_lines
    (city_label_of (display_name top) (field "country_code" top))
    lat lon (field "temperature" section) (field "windspeed" section)
    (describe_code code).

(** A JSON body that can be searched for the section [k] and does not hold
    it: an object without the key, an array without the text as an
    element, a text without it as a part. A null, a boolean or a number
    cannot be searched. *)
Definition lacks_section (k : string) (data : value) : Prop :=
  match data with
  | PDict d => dict_lookup k d = None
  | PList l => existsb (is_str k) l = false
  | PStr s => str_contains k s = false
  | PNone | PBool _ | PInt _ | PFloat _ => False
  end.

(** [result.get(k)] on what a client returned. *)
Definition read_field (result : outcome value) (k : string) : res value :=
  match result with
  | Val v => get_or v k PNone
  | Exc e => inl e
  end.

End SessionVocabulary.

(** ** Further example sessions *)

Module Scenarios.
Import IntegralFloats.

(** A world whose server answers every request with the same outcome. *)
Definition answering (o : http_outcome) : world :=
  Examples.quiet (Examples.always o).

(** A world with typed keys waiting and the usual upstream. *)
Definition at_keyboard (keys : list keyboard_event) : world :=
  mk_world keys [] (Examples.upstream Examples.prague_entry) [].

Definition unreachable : exn := mk_exn ConnectionError "connection refused".

Definition not_json : http_outcome :=
  Responded (mk_response 200 "" (inl "Expecting value: line 1 column 1 (char 0)")).

Definition entry_without_latitude : list (string * value) :=
  [("longitude", PFloat 14); ("name", PStr "Prague")].

(** One date, two entries in every other sequence. *)
Definition daily_long : list (string * value) :=
  [("time", PList [PStr "2025-01-01"]);
   ("weathercode", PList [PInt 3; PInt 1]);
   ("temperature_2m_max", PList [PFloat 10; PFloat 11]);
   ("temperature_2m_min", PList [PFloat 2; PFloat 3]);
   ("precipitation_sum", PList [PFloat 0; PFloat 1]);
   ("windspeed_10m_max", PList [PFloat 20; PFloat 15]);
   ("winddirection_10m_dominant", PList [PInt 180; PInt 200])].

(** Two dates, one weather code. *)
Definition daily_short_codes : list (string * value) :=
  [("time", PList [PStr "2025-01-01"; PStr "2025-01-02"]);
   ("weathercode", PList [PInt 3]);
   ("temperature_2m_max", PList [PFloat 10; PFloat 11]);
   ("temperature_2m_min", PList [PFloat 2; PFloat 3]);
   ("precipitation_sum", PList [PFloat 0; PFloat 1]);
   ("windspeed_10m_max", PList [PFloat 20; PFloat 15]);
   ("winddirection_10m_dominant", PList [PInt 180; PInt 200])].

(** The usual upstream, its forecast endpoint down. *)
Definition forecast_down (_ : list request) (rq : request) : http_outcome :=
  if (req_url rq =? GEOCODE_URL)%string then
    Examples.ok (PDict [("results", PList [PDict Examples.prague_entry])])
  else
    match dict_lookup "daily" (req_params rq) with
    | Some _ => Responded (mk_response 503 "503 Server Error" (inl ""))
    | None =>
        Examples.ok (PDict [("current_weather", PDict Examples.current_section)])
    end.

End Scenarios.

(** * Properties *)

(** ** The condition code table *)

Lemma code_lookup_absent (n : Z) (table : list (Z * string)) :
  ~ In n (map fst table) -> code_lookup n table = None.
Proof.
  induction table as [|[k text] rest IH]; simpl; intros Hn.
  - reflexivity.
  - destruct (Z.eqb_spec n k) as [->|Hne].
    + exfalso. apply Hn. now left.
    + apply IH. intros Hin. apply Hn. now right.
Qed.

Lemma code_lookup_first (n : Z) (text : string) (table : list (Z * string)) :
  NoDup (map fst table) -> In (n, text) table -> code_lookup n table = Some text.
Proof.
  induction table as [|[k t] rest IH]; simpl; intros Hnd Hin.
  - contradiction.
  - inversion Hnd as [|? ? Hk Hrest]; subst.
    destruct Hin as [Heq|Hin].
    + inversion Heq; subst. now rewrite Z.eqb_refl.
    + destruct (Z.eqb_spec n k) as [->|Hne].
      * exfalso. apply Hk. apply (in_map fst) in Hin. exact Hin.
      * now apply IH.
Qed.

Lemma WEATHER_CODE_MAP_keys_distinct : NoDup (map fst WEATHER_CODE_MAP).
Proof.
  simpl.
  repeat (constructor; [simpl; intuition discriminate|]).
  constructor.
Qed.

(** C5. [describe_code] is a total function from integers to strings: on a
    key of [WEATHER_CODE_MAP] it returns the text the table binds to it, on
    any other integer [n] the text "Code " followed by [n] in decimal. *)
Theorem describe_code_table_or_fallback :
  (forall (code : Z) (text : string),
      In (code, text) WEATHER_CODE_MAP -> describe_code code = text) /\
  (forall n : Z,
      ~ In n (map fst WEATHER_CODE_MAP) ->
      describe_code n = "Code " ++ string_of_Z n).
Proof.
  split.
  - intros code text Hin. unfold describe_code.
    now rewrite (code_lookup_first code text _ WEATHER_CODE_MAP_keys_distinct Hin).
  - intros n Hn. unfold describe_code.
    now rewrite (code_lookup_absent n _ Hn).
Qed.

Lemma describe_code_table_or_fallback_witness :
  describe_code 3 = "Overcast" /\ describe_code 1234 = "Code 1234".
Proof.
  destruct describe_code_table_or_fallback as [Hknown Hother].
  split.
  - apply Hknown. simpl. tauto.
  - apply (Hother 1234). simpl. intuition discriminate.
Defined.

(** ** The weather client *)

(** Case analysis on what a client function branches on: the server's
    answer, the status test, the body and the accesses to it. *)
Ltac client_cases :=
  repeat (simpl;
          match goal with
          | |- context [server ?w ?h ?rq] => destruct (server w h rq) eqn:?
          | |- context [if (?a && ?b) then _ else _] => destruct (a && b) eqn:?
          | |- context [json_body ?r] => destruct (json_body r) eqn:?
          | |- context [contains_key ?k ?v] =>
              destruct (contains_key k v) as [?|[|]] eqn:?
          | |- context [getitem_key ?v ?k] => destruct (getitem_key v k) eqn:?
          | |- context [get_or ?v ?k ?d] => destruct (get_or v k d) eqn:?
          | |- context [getitem_index ?v ?i] =>
              destruct (getitem_index v i) eqn:?
          | |- context [py_float ?v] => destruct (py_float v) eqn:?
          | |- context [if truthy ?v then _ else _] => destruct (truthy v) eqn:?
          | |- context [if negb (truthy ?v) then _ else _] =>
              destruct (truthy v) eqn:?
          end).

Section Clients.
Context {RT : PyRuntime}.

Lemma in_range_test (days : Z) :
  1 <= days <= 16 -> (days <? 1) || (days >? 16) = false.
Proof.
  intros H. rewrite Z.gtb_ltb.
  destruct (Z.ltb_spec days 1), (Z.ltb_spec 16 days); simpl; auto; lia.
Qed.

Lemma out_of_range_test (days : Z) :
  days < 1 \/ 16 < days -> (days <? 1) || (days >? 16) = true.
Proof.
  intros H. rewrite Z.gtb_ltb.
  destruct (Z.ltb_spec days 1), (Z.ltb_spec 16 days); simpl; auto; lia.
Qed.

Lemma status_passes (r : response) :
  successful r -> (400 <=? status_code r) && (status_code r <? 600) = false.
Proof.
  unfold successful. intros H.
  destruct (Z.leb_spec 400 (status_code r)); simpl; auto; lia.
Qed.

(** Each client call records exactly its request, whatever comes back. *)
Lemma get_daily_forecast_world (app : WeatherApp) (lat lon : float) (days : Z)
    (w : world) :
  1 <= days <= 16 ->
  snd (get_daily_forecast app lat lon days w)
  = requested w [forecast_request app lat lon days].
Proof.
  intros Hd. unfold get_daily_forecast. rewrite (in_range_test _ Hd).
  unfold bind, requests_get, raise_for_status, json, lift, raise, ret,
    requested, forecast_request.
  client_cases; reflexivity.
Qed.

Lemma get_current_weather_world (app : WeatherApp) (lat lon : float)
    (w : world) :
  snd (get_current_weather app lat lon w)
  = requested w [current_request app lat lon].
Proof.
  unfold get_current_weather, bind, requests_get, raise_for_status, json,
    lift, raise, ret, requested, current_request.
  client_cases; reflexivity.
Qed.

Lemma get_daily_forecast_rejects (app : WeatherApp) (lat lon : float)
    (days : Z) (w : world) :
  days < 1 \/ 16 < days ->
  get_daily_forecast app lat lon days w
  = (Exc (mk_exn ValueError "Forecast days must be between 1 and 16."), w).
Proof.
  intros Hd. unfold get_daily_forecast. now rewrite (out_of_range_test _ Hd).
Qed.

Lemma get_daily_forecast_section (app : WeatherApp) (lat lon : float)
    (days : Z) (w : world) (r : response)
    (body : list (string * value)) (d : value) :
  1 <= days <= 16 ->
  server w (sent w) (forecast_request app lat lon days) = Responded r ->
  successful r ->
  json_body r = inr (PDict body) ->
  dict_lookup "daily" body = Some d ->
  fst (get_daily_forecast app lat lon days w) = Val d.
Proof.
  intros Hd Hsrv Hok Hbody Hdaily.
  unfold get_daily_forecast. rewrite (in_range_test _ Hd).
  unfold forecast_request in Hsrv.
  unfold bind, requests_get, raise_for_status, json. rewrite Hsrv.
  rewrite (status_passes _ Hok). simpl. rewrite Hbody. simpl.
  rewrite Hdaily. simpl. rewrite ?Hdaily. reflexivity.
Qed.

(** C2. [get_daily_forecast] with a day count below 1 or above 16 raises
    the bad-parameter ValueError at once and leaves the world as it was, so
    no request is sent; with a day count in 1..16 it passes the check: it
    sends exactly the forecast request for that count, and returns the
    [daily] section of a successful response that has one. *)
Theorem get_daily_forecast_day_bounds (app : WeatherApp) (lat lon : float)
    (days : Z) (w : world) :
  (days < 1 \/ 16 < days ->
   get_daily_forecast app lat lon days w
   = (Exc (mk_exn ValueError "Forecast days must be between 1 and 16."), w))
  /\
  (1 <= days <= 16 ->
   sent (snd (get_daily_forecast app lat lon days w))
   = (sent w ++ [forecast_request app lat lon days])%list
   /\
   forall (r : response) (body : list (string * value)) (d : value),
     server w (sent w) (forecast_request app lat lon days) = Responded r ->
     successful r ->
     json_body r = inr (PDict body) ->
     dict_lookup "daily" body = Some d ->
     fst (get_daily_forecast app lat lon days w) = Val d).
Proof.
  split.
  - apply get_daily_forecast_rejects.
  - intros Hd. split.
    + now rewrite (get_daily_forecast_world _ _ _ _ _ Hd).
    + intros r body d. now apply get_daily_forecast_section.
Qed.

Lemma get_current_weather_missing (app : WeatherApp) (lat lon : float)
    (w : world) (r : response) (body : list (string * value)) :
  server w (sent w) (current_request app lat lon) = Responded r ->
  successful r ->
  json_body r = inr (PDict body) ->
  dict_lookup "current_weather" body = None ->
  fst (get_current_weather app lat lon w)
  = Exc (mk_exn ValueError "Weather data missing from API response.").
Proof.
  intros Hsrv Hok Hbody Hcw. unfold current_request in Hsrv.
  unfold get_current_weather, bind, requests_get, raise_for_status, json.
  rewrite Hsrv, (status_passes _ Hok). simpl. rewrite Hbody. simpl.
  rewrite Hcw. reflexivity.
Qed.

Lemma get_current_weather_section (app : WeatherApp) (lat lon : float)
    (w : world) (r : response) (body : list (string * value)) (cw : value) :
  server w (sent w) (current_request app lat lon) = Responded r ->
  successful r ->
  json_body r = inr (PDict body) ->
  dict_lookup "current_weather" body = Some cw ->
  fst (get_current_weather app lat lon w) = Val cw.
Proof.
  intros Hsrv Hok Hbody Hcw. unfold current_request in Hsrv.
  unfold get_current_weather, bind, requests_get, raise_for_status, json.
  rewrite Hsrv, (status_passes _ Hok). simpl. rewrite Hbody. simpl.
  rewrite Hcw. simpl. rewrite ?Hcw. reflexivity.
Qed.

Lemma get_current_weather_unsearchable (app : WeatherApp) (lat lon : float)
    (w : world) (r : response) (data : value) :
  server w (sent w) (current_request app lat lon) = Responded r ->
  successful r ->
  json_body r = inr data ->
  scalar data = true ->
  exists e : exn,
    fst (get_current_weather app lat lon w) = Exc e /\ exn_cls e = TypeError.
Proof.
  intros Hsrv Hok Hbody Hsc. unfold current_request in Hsrv.
  unfold get_current_weather, bind, requests_get, raise_for_status, json.
  rewrite Hsrv, (status_passes _ Hok). simpl. rewrite Hbody. simpl.
  destruct data; simpl in *; try discriminate; eexists; split; reflexivity.
Qed.

Lemma get_current_weather_lacking (app : WeatherApp) (lat lon : float)
    (w : world) (r : response) (data : value) :
  server w (sent w) (current_request app lat lon) = Responded r ->
  successful r ->
  json_body r = inr data ->
  lacks_section "current_weather" data ->
  fst (get_current_weather app lat lon w)
  = Exc (mk_exn ValueError "Weather data missing from API response.").
Proof.
  intros Hsrv Hok Hbody Hlack. unfold current_request in Hsrv.
  unfold get_current_weather, bind, requests_get, raise_for_status, json.
  rewrite Hsrv, (status_passes _ Hok). simpl. rewrite Hbody. simpl.
  destruct data; simpl in Hlack; try contradiction; simpl;
    rewrite Hlack; reflexivity.
Qed.


End Clients.

(** ** The geocoding client *)

Section Geocoding.
Context {RT : PyRuntime}.

Lemma geocode_city_world (app : WeatherApp) (city : string) (w : world) :
  snd (geocode_city app city w) = requested w [geocode_request app city].
Proof.
  unfold geocode_city, bind, requests_get, raise_for_status, json, lift,
    raise, ret, requested, geocode_request.
  client_cases; reflexivity.
Qed.

Lemma geocode_city_not_found (app : WeatherApp) (city : string) (w : world)
    (r : response) (body : list (string * value)) :
  server w (sent w) (geocode_request app city) = Responded r ->
  successful r ->
  json_body r = inr (PDict body) ->
  truthy (field "results" body) = false ->
  fst (geocode_city app city w)
  = Exc (mk_exn ValueError ("City '" ++ city ++ "' not found.")).
Proof.
  intros Hsrv Hok Hbody Hres. unfold geocode_request in Hsrv.
  unfold geocode_city, bind, requests_get, raise_for_status, json.
  rewrite Hsrv, (status_passes _ Hok). simpl. rewrite Hbody. simpl.
  unfold field in Hres. rewrite Hres. reflexivity.
Qed.

Lemma geocode_city_first_entry (app : WeatherApp) (city : string) (w : world)
    (r : response) (body top : list (string * value)) (rest : list value)
    (lat_v lon_v : value) (lat lon : float) :
  server w (sent w) (geocode_request app city) = Responded r ->
  successful r ->
  json_body r = inr (PDict body) ->
  dict_lookup "results" body = Some (PList (PDict top :: rest)) ->
  dict_lookup "latitude" top = Some lat_v -> py_float lat_v = inr lat ->
  dict_lookup "longitude" top = Some lon_v -> py_float lon_v = inr lon ->
  fst (geocode_city app city w)
  = Val (lat, lon, display_name top, field "country_code" top).
Proof.
  intros Hsrv Hok Hbody Hres Hlat Hlatf Hlon Hlonf.
  unfold geocode_request in Hsrv.
  unfold geocode_city, bind, requests_get, raise_for_status, json.
  rewrite Hsrv, (status_passes _ Hok). simpl. rewrite Hbody. simpl.
  rewrite Hres. simpl. rewrite Hlat. simpl. rewrite Hlatf. simpl.
  rewrite Hlon. simpl. rewrite Hlonf. simpl.
  unfold display_name, field.
  destruct (dict_lookup "admin1" top) as [a|] eqn:Ha; simpl.
  - destruct (truthy a); simpl; [rewrite ?Ha|]; reflexivity.
  - reflexivity.
Qed.

Lemma display_name_texts (top : list (string * value)) (name : string) :
  dict_lookup "name" top = Some (PStr name) ->
  (forall admin1 : string,
     dict_lookup "admin1" top = Some (PStr admin1) -> admin1 <> "" ->
     display_name top = name ++ ", " ++ admin1)
  /\
  (dict_lookup "admin1" top = None
   \/ dict_lookup "admin1" top = Some PNone
   \/ dict_lookup "admin1" top = Some (PStr "") ->
   display_name top = name).
Proof.
  intros Hname. unfold display_name, field. rewrite Hname. split.
  - intros admin1 Ha Hne. rewrite Ha. simpl.
    destruct (String.eqb_spec admin1 ""); [contradiction|reflexivity].
  - intros [Ha|[Ha|Ha]]; rewrite Ha; reflexivity.
Qed.

(** C1, as amended. For a successful geocoding response whose JSON object
    has no [results], or a null or empty one, [geocode_city] raises the
    not-found ValueError. When [results] is a list whose first entry is an
    object with a latitude and a longitude, it returns these two as floats,
    the entry's country code, and a display name that is the entry's name,
    followed by ", " and [admin1] when [admin1] is present and non-empty;
    an [admin1] that is absent, null or empty is left out. *)
Theorem geocode_city_first_match (app : WeatherApp) (city : string)
    (w : world) (r : response) (body : list (string * value)) :
  server w (sent w) (geocode_request app city) = Responded r ->
  successful r ->
  json_body r = inr (PDict body) ->
  (truthy (field "results" body) = false ->
   fst (geocode_city app city w)
   = Exc (mk_exn ValueError ("City '" ++ city ++ "' not found.")))
  /\
  (forall (top : list (string * value)) (rest : list value)
          (lat_v lon_v : value) (lat lon : float) (name : string),
     dict_lookup "results" body = Some (PList (PDict top :: rest)) ->
     dict_lookup "latitude" top = Some lat_v -> py_float lat_v = inr lat ->
     dict_lookup "longitude" top = Some lon_v -> py_float lon_v = inr lon ->
     dict_lookup "name" top = Some (PStr name) ->
     fst (geocode_city app city w)
     = Val (lat, lon, display_name top, field "country_code" top)
     /\
     (forall admin1 : string,
        dict_lookup "admin1" top = Some (PStr admin1) -> admin1 <> "" ->
        display_name top = name ++ ", " ++ admin1)
     /\
     (dict_lookup "admin1" top = None
      \/ dict_lookup "admin1" top = Some PNone
      \/ dict_lookup "admin1" top = Some (PStr "") ->
      display_name top = name)).
Proof.
  intros Hsrv Hok Hbody. split.
  - now apply geocode_city_not_found with (r := r).
  - intros top rest lat_v lon_v lat lon name Hres Hlat Hlatf Hlon Hlonf Hname.
    split.
    + now apply geocode_city_first_entry
        with (r := r) (body := body) (rest := rest)
             (lat_v := lat_v) (lon_v := lon_v).
    + now apply display_name_texts.
Qed.

End Geocoding.

(** ** The presenter *)

Lemma append_assoc (a b c : string) : (a ++ b) ++ c = a ++ b ++ c.
Proof. induction a as [|x a IH]; simpl; [reflexivity|now rewrite IH]. Qed.

Lemma occurs_in_here (sub post : string) : occurs_in sub (sub ++ post).
Proof. exists EmptyString, post. reflexivity. Qed.

Lemma occurs_in_after (sub pre s : string) :
  occurs_in sub s -> occurs_in sub (pre ++ s).
Proof.
  intros [a [b ->]]. exists (pre ++ a), b. now rewrite append_assoc.
Qed.

Lemma Forall2_nth_error {A B : Type} (R : A -> B -> Prop)
    (l : list A) (l' : list B) :
  Forall2 R l l' ->
  forall (i : nat) (a : A) (b : B),
    nth_error l i = Some a -> nth_error l' i = Some b -> R a b.
Proof.
  induction 1 as [|x y l l' Hxy _ IH]; intros [|i] a b Ha Hb;
    simpl in *; try discriminate.
  - inversion Ha; inversion Hb; subst. exact Hxy.
  - eapply IH; eassumption.
Qed.

Section Presenter.
Context {RT : PyRuntime}.

Lemma shown_nil (w : world) : shown w [] = w.
Proof. destruct w. unfold shown. simpl. now rewrite app_nil_r. Qed.

Lemma shown_shown (w : world) (a b : list console_event) :
  shown (shown w a) b = shown w (a ++ b)%list.
Proof. unfold shown. simpl. now rewrite app_assoc. Qed.

Lemma print_shown (text : string) (w : world) :
  print text w = (Val tt, shown w [Printed text]).
Proof. reflexivity. Qed.

Lemma for_each_print (lines : list string) (w : world) :
  for_each lines print w = (Val tt, shown w (map Printed lines)).
Proof.
  revert w. induction lines as [|line rest IH]; intros w; simpl.
  - now rewrite shown_nil.
  - unfold bind. rewrite print_shown, IH, shown_shown. reflexivity.
Qed.

(** A loop whose every round prints one line prints one line per round. *)
Lemma for_each_rows (P : nat -> string -> Prop) (body : nat -> M unit)
    (l : list nat) :
  (forall i : nat, In i l ->
     exists line : string,
       P i line /\ forall w : world, body i w = (Val tt, shown w [Printed line])) ->
  forall w : world,
    exists lines : list string,
      for_each l body w = (Val tt, shown w (map Printed lines))
      /\ Forall2 P l lines.
Proof.
  induction l as [|i rest IH]; intros Hbody w.
  - exists []. simpl. rewrite shown_nil. split; [reflexivity|constructor].
  - destruct (Hbody i (or_introl eq_refl)) as [line [HP Hrun]].
    destruct (IH (fun j Hj => Hbody j (or_intror Hj)) (shown w [Printed line]))
      as [lines [Hrest HF]].
    exists (line :: lines). split.
    + simpl. unfold bind. rewrite Hrun, Hrest, shown_shown. reflexivity.
    + now constructor.
Qed.

Lemma print_current_renders (app : WeatherApp) (label : string)
    (lat lon : float) (d : list (string * value)) (code : Z) (w : world) :
  py_int (match dict_lookup "weathercode" d with
          | Some v => v
          | None => PInt (-999)
          end) = inr code ->
  print_current app label lat lon (PDict d) w
  = (Val tt,
     shown w (map Printed
                (current_lines label lat lon (field "temperature" d)
                   (field "windspeed" d) (describe_code code)))).
Proof.
  intros Hcode.
  cbv beta iota delta [print_current bind lift get_or].
  rewrite Hcode. apply for_each_print.
Qed.

(** C9. For a current-conditions dictionary without the [weathercode] key,
    [print_current] returns normally, having printed its six lines with the
    condition of the default code -999, that is "Code -999". In the same
    way, whenever the weather code is usable, a missing [temperature] or
    [windspeed] is shown as [None] and nothing is raised. *)
Theorem print_current_missing_fields (app : WeatherApp) (label : string)
    (lat lon : float) (d : list (string * value)) (w : world) :
  (dict_lookup "weathercode" d = None ->
   print_current app label lat lon (PDict d) w
   = (Val tt,
      shown w (map Printed
                 (current_lines label lat lon (field "temperature" d)
                    (field "windspeed" d) "Code -999")))
   /\ In (Printed "Condition  : Code -999")
        (console (snd (print_current app label lat lon (PDict d) w))))
  /\
  (forall code : Z,
     py_int (match dict_lookup "weathercode" d with
             | Some v => v
             | None => PInt (-999)
             end) = inr code ->
     (dict_lookup "temperature" d = None ->
      fst (print_current app label lat lon (PDict d) w) = Val tt
      /\ In (Printed "Temperature: None °C")
           (console (snd (print_current app label lat lon (PDict d) w))))
     /\
     (dict_lookup "windspeed" d = None ->
      fst (print_current app label lat lon (PDict d) w) = Val tt
      /\ In (Printed "Windspeed  : None km/h")
           (console (snd (print_current app label lat lon (PDict d) w))))).
Proof.
  split.
  - intros Hwc.
    assert (Hrun := print_current_renders app label lat lon d (-999) w).
    rewrite Hwc in Hrun. specialize (Hrun eq_refl).
    change (describe_code (-999)) with "Code -999" in Hrun.
    split; [exact Hrun|].
    rewrite Hrun. simpl. apply in_or_app. right. simpl. tauto.
  - intros code Hcode.
    rewrite (print_current_renders app label lat lon d code w Hcode).
    split; intros Hmiss; (split; [reflexivity|]); simpl;
      apply in_or_app; right; unfold field; rewrite Hmiss; simpl; tauto.
Qed.

Lemma nth_error_below {A : Type} (l : list A) (i : nat) :
  (i < List.length l)%nat -> exists x : A, nth_error l i = Some x.
Proof.
  intros Hi. destruct (nth_error l i) as [x|] eqn:E.
  - now exists x.
  - apply nth_error_None in E. lia.
Qed.

Lemma forecast_line_typed (desc : string) (dates : list string)
    (tmax tmin psum wmax : list float) (wdir : list Z) (i : nat)
    (date : string) (lo hi prec wind : float) (dir : Z) :
  nth_error dates i = Some date ->
  nth_error tmin i = Some lo -> nth_error tmax i = Some hi ->
  nth_error psum i = Some prec -> nth_error wmax i = Some wind ->
  nth_error wdir i = Some dir ->
  forecast_line desc (PList (map PStr dates)) (PList (map PFloat tmax))
    (PList (map PFloat tmin)) (PList (map PFloat psum))
    (PList (map PFloat wmax)) (PList (map PInt wdir)) i
  = inr (day_line date desc lo hi prec wind dir).
Proof.
  intros Hd Hlo Hhi Hp Hw Hdir.
  unfold forecast_line, getitem_index.
  rewrite (map_nth_error PStr _ _ Hd), (map_nth_error PFloat _ _ Hlo),
    (map_nth_error PFloat _ _ Hhi), (map_nth_error PFloat _ _ Hp),
    (map_nth_error PFloat _ _ Hw), (map_nth_error PInt _ _ Hdir).
  reflexivity.
Qed.

Lemma day_line_shows_day (date desc : string) (lo hi prec wind : float)
    (dir : Z) :
  shows_day date desc (day_line date desc lo hi prec wind dir).
Proof.
  unfold shows_day, day_line. repeat split.
  - apply occurs_in_here.
  - apply occurs_in_after. apply occurs_in_after. unfold ljust.
    rewrite append_assoc. apply occurs_in_here.
  - do 4 apply occurs_in_after. apply (occurs_in_here "min").
  - do 6 apply occurs_in_after.
    apply (occurs_in_after "max" "°C  "). apply (occurs_in_here "max").
Qed.

(** The loop of [print_forecast] on a forecast of [N] well-typed days. *)
Lemma print_forecast_rows (dates : list string) (codes : list Z)
    (tmax tmin psum wmax : list float) (wdir : list Z) (N : nat) (w : world) :
  List.length dates = N -> List.length codes = N ->
  List.length tmax = N -> List.length tmin = N -> List.length psum = N ->
  List.length wmax = N -> List.length wdir = N ->
  exists lines : list string,
    for_each (seq 0 N)
      (fun i =>
         code_v <- lift (getitem_index (PList (map PInt codes)) i) ;;
         code <- lift (py_int code_v) ;;
         line <- lift (forecast_line (describe_code code)
                         (PList (map PStr dates)) (PList (map PFloat tmax))
                         (PList (map PFloat tmin)) (PList (map PFloat psum))
                         (PList (map PFloat wmax)) (PList (map PInt wdir)) i) ;;
         print line) w
    = (Val tt, shown w (map Printed lines))
    /\ Forall2
         (fun i line =>
            forall (date : string) (code : Z),
              nth_error dates i = Some date -> nth_error codes i = Some code ->
              shows_day date (describe_code code) line)
         (seq 0 N) lines.
Proof.
  intros Ld Lc Lhi Llo Lp Lw Ldir.
  apply for_each_rows. intros i Hi. apply in_seq in Hi.
  assert (Hlt : (i < N)%nat) by lia.
  destruct (nth_error_below dates i) as [date Hd]; [lia|].
  destruct (nth_error_below codes i) as [code Hc]; [lia|].
  destruct (nth_error_below tmax i) as [hi Hhi]; [lia|].
  destruct (nth_error_below tmin i) as [lo Hlo]; [lia|].
  destruct (nth_error_below psum i) as [prec Hp]; [lia|].
  destruct (nth_error_below wmax i) as [wind Hw]; [lia|].
  destruct (nth_error_below wdir i) as [dir Hdir]; [lia|].
  exists (day_line date (describe_code code) lo hi prec wind dir). split.
  - intros date' code' Hd' Hc'.
    rewrite Hd in Hd'. rewrite Hc in Hc'. inversion Hd'; inversion Hc'; subst.
    apply day_line_shows_day.
  - intros w'. unfold bind, lift, getitem_index at 1.
    rewrite (map_nth_error PInt _ _ Hc). cbn [py_int].
    rewrite (forecast_line_typed _ _ _ _ _ _ _ _ _ _ _ _ _ _
               Hd Hlo Hhi Hp Hw Hdir).
    apply print_shown.
Qed.

(** C4. For a forecast whose seven sequences hold [N] entries each, of the
    types of the data model, [print_forecast] returns normally having
    printed the heading and then exactly [N] lines, the line of day [i]
    showing the date of that day, the description of its weather code, and
    the words "min" and "max". The loop runs over the indices of [time]:
    without entries under [time] only the heading is printed, whatever the
    other sequences hold. *)
Theorem print_forecast_one_line_per_day (app : WeatherApp) :
  (forall (d : list (string * value)) (N : nat)
          (dates : list string) (codes : list Z)
          (tmax tmin psum wmax : list float) (wdir : list Z) (w : world),
     dict_lookup "time" d = Some (PList (map PStr dates)) ->
     dict_lookup "weathercode" d = Some (PList (map PInt codes)) ->
     dict_lookup "temperature_2m_max" d = Some (PList (map PFloat tmax)) ->
     dict_lookup "temperature_2m_min" d = Some (PList (map PFloat tmin)) ->
     dict_lookup "precipitation_sum" d = Some (PList (map PFloat psum)) ->
     dict_lookup "windspeed_10m_max" d = Some (PList (map PFloat wmax)) ->
     dict_lookup "winddirection_10m_dominant" d = Some (PList (map PInt wdir)) ->
     List.length dates = N -> List.length codes = N ->
     List.length tmax = N -> List.length tmin = N -> List.length psum = N ->
     List.length wmax = N -> List.length wdir = N ->
     exists lines : list string,
       print_forecast app (PDict d) w
       = (Val tt, shown w (Printed forecast_heading :: map Printed lines))
       /\ List.length lines = N
       /\ forall (i : nat) (date : string) (code : Z) (line : string),
            nth_error dates i = Some date ->
            nth_error codes i = Some code ->
            nth_error lines i = Some line ->
            shows_day date (describe_code code) line)
  /\
  (forall (d : list (string * value)) (w : world),
     dict_lookup "time" d = None \/ dict_lookup "time" d = Some (PList []) ->
     print_forecast app (PDict d) w
     = (Val tt, shown w [Printed forecast_heading])).
Proof.
  split.
  - intros d N dates codes tmax tmin psum wmax wdir w
      Ht Hc Hhi Hlo Hp Hw Hdir Ld Lc Lhi Llo Lp Lw Ldir.
    destruct (print_forecast_rows dates codes tmax tmin psum wmax wdir N
                (shown w [Printed forecast_heading])
                Ld Lc Lhi Llo Lp Lw Ldir) as [lines [Hrun HF]].
    exists lines. split; [|split].
    + cbv beta iota delta [print_forecast bind lift get_or].
      rewrite print_shown, Ht, Hc, Hhi, Hlo, Hp, Hw, Hdir.
      cbv beta iota delta [py_len]. rewrite length_map, Ld.
      fold (@bind RT). fold (@lift RT).
      etransitivity; [exact Hrun|]. now rewrite shown_shown.
    + apply Forall2_length in HF. rewrite length_seq in HF. congruence.
    + intros i date code line Hd Hcode Hline.
      assert (Hi : nth_error (seq 0 N) i = Some i).
      { rewrite nth_error_seq.
        assert (Hlt : (i < N)%nat).
        { rewrite <- Ld. apply nth_error_Some. congruence. }
        apply Nat.ltb_lt in Hlt. now rewrite Hlt. }
      exact (Forall2_nth_error _ _ _ HF i i line Hi Hline date code Hd Hcode).
  - intros d w Ht.
    cbv beta iota delta [print_forecast bind lift get_or].
    rewrite print_shown.
    destruct Ht as [Ht|Ht]; rewrite Ht; simpl;
      repeat match goal with
             | |- context [dict_lookup ?k d] => destruct (dict_lookup k d)
             end; reflexivity.
Qed.

End Presenter.

(** ** The session orchestrator *)

Section Frames.
Context {RT : PyRuntime}.

Lemma offline_ret {A : Type} (a : A) : offline (ret a).
Proof. intros w. reflexivity. Qed.

Lemma offline_raise {A : Type} (c : exn_class) (msg : string) :
  offline (@raise _ A c msg).
Proof. intros w. reflexivity. Qed.

Lemma offline_lift {A : Type} (r : res A) : offline (lift r).
Proof. intros w. unfold lift. now destruct r. Qed.

Lemma offline_print (text : string) : offline (print text).
Proof. intros w. reflexivity. Qed.

Lemma offline_input (prompt : string) : offline (input prompt).
Proof. intros w. unfold input. now destruct (keyboard w) as [|[s|] rest]. Qed.

Lemma offline_bind {A B : Type} (m : M A) (k : A -> M B) :
  offline m -> (forall a : A, offline (k a)) -> offline (bind m k).
Proof.
  intros Hm Hk w. unfold bind. specialize (Hm w).
  destruct (m w) as [[a|e] w']; simpl in *.
  - now rewrite Hk.
  - exact Hm.
Qed.

Lemma offline_for_each {A : Type} (l : list A) (body : A -> M unit) :
  (forall a : A, offline (body a)) -> offline (for_each l body).
Proof.
  intros Hbody. induction l as [|a rest IH]; simpl.
  - apply offline_ret.
  - apply offline_bind; [apply Hbody|intros _; exact IH].
Qed.

Lemma offline_try_except {A : Type} (body : M A)
    (clauses : list (except_target * (exn -> M A))) :
  (forall (e : exn) (h : M A), select_clause clauses e = Some h -> offline h) ->
  forall w : world,
    sent (snd (try_except body clauses w)) = sent (snd (body w)).
Proof.
  intros Hh w. unfold try_except.
  destruct (body w) as [[a|e] w']; simpl; [reflexivity|].
  destruct (select_clause clauses e) as [h|] eqn:E; [|reflexivity].
  apply (Hh e h E).
Qed.

Lemma appending_ret {A : Type} (a : A) : appending (ret a).
Proof. intros w. exists []. simpl. now rewrite app_nil_r. Qed.

Lemma appending_raise {A : Type} (c : exn_class) (msg : string) :
  appending (@raise _ A c msg).
Proof. intros w. exists []. simpl. now rewrite app_nil_r. Qed.

Lemma appending_lift {A : Type} (r : res A) : appending (lift r).
Proof.
  intros w. exists []. unfold lift. destruct r; simpl; now rewrite app_nil_r.
Qed.

Lemma appending_print (text : string) : appending (print text).
Proof. intros w. now exists [Printed text]. Qed.

Lemma appending_bind {A B : Type} (m : M A) (k : A -> M B) :
  appending m -> (forall a : A, appending (k a)) -> appending (bind m k).
Proof.
  intros Hm Hk w. unfold bind. destruct (Hm w) as [ev Hev].
  destruct (m w) as [[a|e] w']; simpl in *.
  - destruct (Hk a w') as [ev' Hev']. exists (ev ++ ev')%list.
    now rewrite Hev', Hev, app_assoc.
  - now exists ev.
Qed.

Lemma appending_for_each {A : Type} (l : list A) (body : A -> M unit) :
  (forall a : A, appending (body a)) -> appending (for_each l body).
Proof.
  intros Hbody. induction l as [|a rest IH]; simpl.
  - apply appending_ret.
  - apply appending_bind; [apply Hbody|intros _; exact IH].
Qed.

Lemma appending_requests_get (url : string) (params : list (string * value))
    (t : float) : appending (requests_get url params t).
Proof.
  intros w. exists []. unfold requests_get.
  destruct (server w (sent w) _); simpl; now rewrite app_nil_r.
Qed.

Create HintDb frames.
#[local] Hint Resolve offline_ret offline_raise offline_lift offline_print
  offline_input offline_bind offline_for_each : frames.
#[local] Hint Resolve appending_ret appending_raise appending_lift
  appending_print appending_requests_get appending_bind appending_for_each
  : frames.

Lemma offline_print_current (app : WeatherApp) (label : string)
    (lat lon : float) (cw : value) :
  offline (print_current app label lat lon cw).
Proof. unfold print_current. auto 10 with frames. Qed.

Lemma offline_print_forecast (app : WeatherApp) (daily : value) :
  offline (print_forecast app daily).
Proof. unfold print_forecast. auto 20 with frames. Qed.

Lemma appending_print_forecast (app : WeatherApp) (daily : value) :
  appending (print_forecast app daily).
Proof. unfold print_forecast. auto 20 with frames. Qed.

Lemma appending_get_daily_forecast (app : WeatherApp) (lat lon : float)
    (days : Z) : appending (get_daily_forecast app lat lon days).
Proof.
  unfold get_daily_forecast.
  destruct ((days <? 1) || (days >? 16)); [apply appending_raise|].
  apply appending_bind; [apply appending_requests_get|intros r].
  apply appending_bind.
  { unfold raise_for_status.
    destruct ((400 <=? status_code r) && (status_code r <? 600));
      [apply appending_raise|apply appending_ret]. }
  intros _. apply appending_bind.
  { unfold json. destruct (json_body r);
      [apply appending_raise|apply appending_ret]. }
  intros data. apply appending_bind; [apply appending_lift|intros present].
  destruct (negb present); [apply appending_raise|apply appending_lift].
Qed.

End Frames.

Section Prompt.
Context {RT : PyRuntime}.

Lemma ask_loop_in_range (rounds : nat) :
  forall (w w' : world) (d : Z),
    ask_loop rounds w = (Val d, w') -> 0 <= d <= 16.
Proof.
  induction rounds as [|k IH]; intros w w' d Hrun; simpl in Hrun.
  - discriminate.
  - unfold bind, input in Hrun.
    destruct (keyboard w) as [|[s|] rest]; try discriminate.
    destruct (int_of_string _) as [n|].
    + destruct (Z.leb_spec 0 n), (Z.leb_spec n 16); simpl in Hrun;
        try (eapply IH; exact Hrun).
      inversion Hrun; subst. lia.
    + simpl in Hrun. eapply IH; exact Hrun.
Qed.

Lemma offline_ask_loop (rounds : nat) : offline (ask_loop rounds).
Proof.
  induction rounds as [|k IH]; simpl.
  - apply offline_raise.
  - apply offline_bind; [apply offline_input|intros line].
    destruct (int_of_string _) as [n|].
    + destruct ((0 <=? n) && (n <=? 16)); [apply offline_ret|].
      apply offline_bind; [apply offline_print|intros _; exact IH].
    + apply offline_bind; [apply offline_print|intros _; exact IH].
Qed.

(** The bound on the rounds is never what ends the loop: any larger bound
    gives the same run. *)
Lemma ask_loop_bound_slack (rounds : nat) :
  forall w : world,
    (List.length (keyboard w) < rounds)%nat ->
    ask_loop rounds w = ask_loop (S (List.length (keyboard w))) w.
Proof.
  induction rounds as [|k IH]; intros w Hlen; [lia|].
  destruct w as [keys out srv log]. simpl in Hlen.
  destruct keys as [|[s|] rest]; try reflexivity.
  simpl in Hlen. cbn [ask_loop List.length keyboard].
  unfold bind, input. cbn [keyboard console server sent].
  destruct (int_of_string _) as [n|];
    [destruct ((0 <=? n) && (n <=? 16)); [reflexivity|]|];
    unfold print; cbn [keyboard console server sent];
    apply IH; simpl; lia.
Qed.

Lemma ask_loop_round (k : nat) (w : world) :
  ask_loop (S k) w
  = (line <- input days_prompt ;;
     match int_of_string (entered line) with
     | Some days =>
         if (0 <=? days) && (days <=? 16) then ret days
         else print retry_text ;; ask_loop k
     | None => print retry_text ;; ask_loop k
     end) w.
Proof. reflexivity. Qed.

(** One round of the prompt loop on a typed line. *)
Lemma ask_round (w : world) (s : string) (rest : list keyboard_event) :
  keyboard w = Line s :: rest ->
  ask_forecast_days_interactively w
  = match int_of_string (entered s) with
    | Some d =>
        if (0 <=? d) && (d <=? 16)
        then (Val d, shown (typed w rest) [Prompted days_prompt])
        else ask_forecast_days_interactively
               (shown (typed w rest) [Prompted days_prompt; Printed retry_text])
    | None =>
        ask_forecast_days_interactively
          (shown (typed w rest) [Prompted days_prompt; Printed retry_text])
    end.
Proof.
  intros Hk. unfold ask_forecast_days_interactively. rewrite Hk.
  change (S (List.length (Line s :: rest))) with (S (S (List.length rest))).
  rewrite ask_loop_round. unfold bind, input. rewrite Hk.
  assert (Hw : mk_world rest
                 ((console w ++ [Prompted days_prompt]) ++ [Printed retry_text])
                 (server w) (sent w)
               = shown (typed w rest) [Prompted days_prompt; Printed retry_text]).
  { unfold shown, typed. simpl. now rewrite <- app_assoc. }
  destruct (int_of_string (entered s)) as [d|].
  - destruct ((0 <=? d) && (d <=? 16)); [reflexivity|].
    unfold print. cbn [keyboard console server sent]. rewrite Hw. reflexivity.
  - unfold print. cbn [keyboard console server sent]. rewrite Hw. reflexivity.
Qed.

Lemma acquire_forecast_days_rejects (args : Args) (n : Z) (w : world) :
  forecast args = Some n -> n < 0 \/ 16 < n ->
  acquire_forecast_days args w
  = (Val None, shown w [Printed "Error: --forecast must be between 0 and 16."]).
Proof.
  intros Hf Hn. unfold acquire_forecast_days. rewrite Hf.
  assert (Ht : (0 <=? n) && (n <=? 16) = false).
  { destruct (Z.leb_spec 0 n), (Z.leb_spec n 16); simpl; auto; lia. }
  rewrite Ht. reflexivity.
Qed.

Lemma select_main_clause (e : exn) :
  select_clause main_clauses e = Some (print (failure_text e)).
Proof. destruct e as [c msg]. destruct c; reflexivity. Qed.

Lemma main_after_return (args : Args) (w0 w w' : world) (city_input : string) :
  acquire_city args w0 = (Val (Some city_input), w) ->
  acquire_forecast_days args w = (Val None, w') ->
  main args w0 = (Val tt, w').
Proof.
  intros Hc Hd. unfold main, try_except, main_steps, bind.
  rewrite Hc, Hd. reflexivity.
Qed.

(** C8. The prompt loop returns nothing but integers from 0 to 16. On a
    typed line that is not an integer, or is one outside 0..16, it prints
    the retry text and asks again with the rest of the input; on a line
    holding an integer in 0..16 it returns it; an empty (or blank) line
    counts as "0" and returns 0. A [--forecast] argument outside 0..16 is
    answered with the range error, no day count is passed on, and once the
    city is known the session ends there with nothing sent. *)
Theorem forecast_days_acquisition :
  (forall (w w' : world) (d : Z),
     ask_forecast_days_interactively w = (Val d, w') -> 0 <= d <= 16)
  /\
  (forall (w : world) (s : string) (rest : list keyboard_event),
     keyboard w = Line s :: rest ->
     let again :=
       ask_forecast_days_interactively
         (shown (typed w rest) [Prompted days_prompt; Printed retry_text]) in
     (int_of_string (entered s) = None ->
      ask_forecast_days_interactively w = again)
     /\
     (forall n : Z,
        int_of_string (entered s) = Some n -> n < 0 \/ 16 < n ->
        ask_forecast_days_interactively w = again)
     /\
     (forall n : Z,
        int_of_string (entered s) = Some n -> 0 <= n <= 16 ->
        ask_forecast_days_interactively w
        = (Val n, shown (typed w rest) [Prompted days_prompt]))
     /\
     (strip s = "" ->
      ask_forecast_days_interactively w
      = (Val 0, shown (typed w rest) [Prompted days_prompt])))
  /\
  (forall (args : Args) (n : Z) (w : world),
     forecast args = Some n -> n < 0 \/ 16 < n ->
     acquire_forecast_days args w
     = (Val None,
        shown w [Printed "Error: --forecast must be between 0 and 16."])
     /\
     forall (w0 : world) (city_input : string),
       acquire_city args w0 = (Val (Some city_input), w) ->
       main args w0
       = (Val tt,
          shown w [Printed "Error: --forecast must be between 0 and 16."])).
Proof.
  split; [|split].
  - intros w w' d. apply ask_loop_in_range.
  - intros w s rest Hk again. subst again.
    rewrite (ask_round w s rest Hk). repeat split.
    + intros ->. reflexivity.
    + intros n -> Hn.
      destruct (Z.leb_spec 0 n), (Z.leb_spec n 16); simpl; auto; lia.
    + intros n -> Hn.
      destruct (Z.leb_spec 0 n), (Z.leb_spec n 16); simpl; auto; lia.
    + intros Hs. unfold entered. rewrite Hs. reflexivity.
  - intros args n w Hf Hn.
    assert (Hrej := acquire_forecast_days_rejects args n w Hf Hn).
    split; [exact Hrej|].
    intros w0 city_input Hc. now apply main_after_return with (w := w) (city_input := city_input).
Qed.

End Prompt.

Section Session.
Context {RT : PyRuntime}.

Lemma offline_acquire_city (args : Args) : offline (acquire_city args).
Proof.
  assert (Hp : offline
                 (line <- input "Enter a city name: " ;;
                  if (strip line =? "")%string
                  then print "No city entered. Exiting." ;; ret None
                  else ret (Some (strip line)))).
  { apply offline_bind; [apply offline_input|intros line].
    destruct (strip line =? "")%string; [|apply offline_ret].
    apply offline_bind; [apply offline_print|intros _; apply offline_ret]. }
  unfold acquire_city. destruct (city args) as [c|]; [|exact Hp].
  destruct (negb (c =? "")%string); [apply offline_ret|exact Hp].
Qed.

Lemma offline_acquire_forecast_days (args : Args) :
  offline (acquire_forecast_days args).
Proof.
  unfold acquire_forecast_days. destruct (forecast args) as [n|].
  - destruct (negb ((0 <=? n) && (n <=? 16))); [|apply offline_ret].
    apply offline_bind; [apply offline_print|intros _; apply offline_ret].
  - apply offline_bind; [|intros d; apply offline_ret].
    intros w. unfold ask_forecast_days_interactively. apply offline_ask_loop.
Qed.

Lemma offline_main_clauses (e : exn) (h : M unit) :
  select_clause main_clauses e = Some h -> offline h.
Proof.
  rewrite select_main_clause. intros Hh. inversion Hh. apply offline_print.
Qed.

Lemma lookup_and_report_zero (app : WeatherApp) (city_input : string)
    (w : world) :
  lookup_and_report app city_input 0 w = current_only app city_input w.
Proof.
  unfold lookup_and_report, current_only, bind.
  change (0 >? 0) with false.
  destruct (geocode_city app city_input w) as [[[[[lat lon] resolved] cc]|e] w1];
    [|reflexivity].
  destruct (get_current_weather app lat lon w1) as [[cw|e] w2]; [|reflexivity].
  now destruct (print_current app _ lat lon cw w2) as [[[]|e] w3].
Qed.

Lemma current_only_sent (app : WeatherApp) (city_input : string) (w : world) :
  sent (snd (current_only app city_input w))
  = (sent w ++ [geocode_request app city_input])%list
  \/ exists lat lon : float,
       sent (snd (current_only app city_input w))
       = (sent w ++ [geocode_request app city_input;
                     current_request app lat lon])%list.
Proof.
  unfold current_only, bind.
  assert (Hg := geocode_city_world app city_input w).
  destruct (geocode_city app city_input w) as [[[[[lat lon] resolved] cc]|e] w1];
    simpl in Hg; subst w1; [|now left].
  right. exists lat, lon.
  assert (Hc := get_current_weather_world app lat lon
                  (requested w [geocode_request app city_input])).
  destruct (get_current_weather app lat lon _) as [[cw|e] w2];
    simpl in Hc; subst w2.
  - rewrite offline_print_current. simpl. now rewrite <- app_assoc.
  - simpl. now rewrite <- app_assoc.
Qed.

Lemma main_sent (args : Args) (w : world) :
  sent (snd (main args w))
  = sent (snd (main_steps args (mk_app (timeout_arg args)) w)).
Proof.
  unfold main. apply offline_try_except. exact offline_main_clauses.
Qed.

Lemma main_steps_acquired (args : Args) (app : WeatherApp) (w w1 w2 : world)
    (city_input : string) (days : Z) :
  acquire_city args w = (Val (Some city_input), w1) ->
  acquire_forecast_days args w1 = (Val (Some days), w2) ->
  main_steps args app w = lookup_and_report app city_input days w2.
Proof.
  intros Hc Hd. unfold main_steps, bind. now rewrite Hc, Hd.
Qed.

Lemma lookup_and_report_forecast (app : WeatherApp) (city_input : string)
    (days : Z) (w w1 w2 w3 : world) (lat lon : float) (resolved : string)
    (cc cw : value) :
  0 < days ->
  geocode_city app city_input w = (Val (lat, lon, resolved, cc), w1) ->
  get_current_weather app lat lon w1 = (Val cw, w2) ->
  print_current app (city_label_of resolved cc) lat lon cw w2 = (Val tt, w3) ->
  lookup_and_report app city_input days w
  = (daily <- get_daily_forecast app lat lon days ;; print_forecast app daily) w3.
Proof.
  intros Hd Hg Hc Hp. unfold lookup_and_report.
  assert (Ht : (days >? 0) = true) by (rewrite Z.gtb_ltb; now apply Z.ltb_lt).
  rewrite Ht. unfold bind. now rewrite Hg, Hc, Hp.
Qed.

Lemma forecast_step_sent (app : WeatherApp) (lat lon : float) (days : Z)
    (w : world) :
  1 <= days <= 16 ->
  sent (snd ((daily <- get_daily_forecast app lat lon days ;;
              print_forecast app daily) w))
  = (sent w ++ [forecast_request app lat lon days])%list.
Proof.
  intros Hd. unfold bind.
  assert (Hw := get_daily_forecast_world app lat lon days w Hd).
  destruct (get_daily_forecast app lat lon days w) as [[daily|e] w'];
    simpl in Hw; subst w'; [|reflexivity].
  now rewrite offline_print_forecast.
Qed.

End Session.

Section Reporting.
Context {RT : PyRuntime}.

Lemma status_fails (r : response) :
  400 <= status_code r < 600 ->
  (400 <=? status_code r) && (status_code r <? 600) = true.
Proof.
  intros H.
  destruct (Z.leb_spec 400 (status_code r)), (Z.ltb_spec (status_code r) 600);
    simpl; auto; lia.
Qed.

Lemma geocode_city_http_error (app : WeatherApp) (city_input : string)
    (w : world) (r : response) :
  400 <= status_code r < 600 ->
  server w (sent w) (geocode_request app city_input) = Responded r ->
  fst (geocode_city app city_input w) = Exc (mk_exn HTTPError (status_text r)).
Proof.
  intros Hst Hsrv. unfold geocode_request in Hsrv.
  unfold geocode_city, bind, requests_get, raise_for_status.
  now rewrite Hsrv, (status_fails _ Hst).
Qed.

Lemma get_current_weather_http_error (app : WeatherApp) (lat lon : float)
    (w : world) (r : response) :
  400 <= status_code r < 600 ->
  server w (sent w) (current_request app lat lon) = Responded r ->
  fst (get_current_weather app lat lon w)
  = Exc (mk_exn HTTPError (status_text r)).
Proof.
  intros Hst Hsrv. unfold current_request in Hsrv.
  unfold get_current_weather, bind, requests_get, raise_for_status.
  now rewrite Hsrv, (status_fails _ Hst).
Qed.

Lemma get_daily_forecast_http_error (app : WeatherApp) (lat lon : float)
    (days : Z) (w : world) (r : response) :
  1 <= days <= 16 ->
  400 <= status_code r < 600 ->
  server w (sent w) (forecast_request app lat lon days) = Responded r ->
  fst (get_daily_forecast app lat lon days w)
  = Exc (mk_exn HTTPError (status_text r)).
Proof.
  intros Hd Hst Hsrv. unfold forecast_request in Hsrv.
  unfold get_daily_forecast. rewrite (in_range_test _ Hd).
  unfold bind, requests_get, raise_for_status.
  now rewrite Hsrv, (status_fails _ Hst).
Qed.

Lemma main_returns (args : Args) (w : world) : fst (main args w) = Val tt.
Proof.
  unfold main, try_except.
  destruct (main_steps args _ w) as [[[]|e] w']; [reflexivity|].
  now rewrite select_main_clause.
Qed.

Lemma main_reports (args : Args) (w w' : world) (e : exn) :
  main_steps args (mk_app (timeout_arg args)) w = (Exc e, w') ->
  main args w = (Val tt, shown w' [Printed (failure_text e)]).
Proof.
  intros Hrun. unfold main, try_except.
  now rewrite Hrun, select_main_clause.
Qed.

(** C6. Every exception finds a clause among those of [main], and the
    clause prints one line, the text of the exception's category. So [main]
    never lets an exception through: it always returns normally, and when
    the steps of the session raise, the console holds what was shown up to
    the failure followed by exactly that one line, and the session is over.
    In particular an upstream status of 500 (any 4xx or 5xx) on the
    geocoding, current-weather or forecast endpoint raises an HTTPError,
    reported as "HTTP error from API: ...". *)
Theorem main_reports_every_failure (args : Args) :
  (forall e : exn,
     select_clause main_clauses e = Some (print (failure_text e)))
  /\
  (forall w : world, fst (main args w) = Val tt)
  /\
  (forall (w w' : world) (e : exn),
     main_steps args (mk_app (timeout_arg args)) w = (Exc e, w') ->
     main args w = (Val tt, shown w' [Printed (failure_text e)]))
  /\
  (forall (app : WeatherApp) (w : world) (r : response),
     400 <= status_code r < 600 ->
     (forall city_input : string,
        server w (sent w) (geocode_request app city_input) = Responded r ->
        fst (geocode_city app city_input w)
        = Exc (mk_exn HTTPError (status_text r)))
     /\
     (forall lat lon : float,
        server w (sent w) (current_request app lat lon) = Responded r ->
        fst (get_current_weather app lat lon w)
        = Exc (mk_exn HTTPError (status_text r)))
     /\
     (forall (lat lon : float) (days : Z),
        1 <= days <= 16 ->
        server w (sent w) (forecast_request app lat lon days) = Responded r ->
        fst (get_daily_forecast app lat lon days w)
        = Exc (mk_exn HTTPError (status_text r)))
     /\
     failure_text (mk_exn HTTPError (status_text r))
     = "HTTP error from API: " ++ status_text r).
Proof.
  split; [exact select_main_clause|].
  split; [exact (main_returns args)|].
  split; [exact (main_reports args)|].
  intros app w r Hst. repeat split.
  - intros city_input. now apply geocode_city_http_error.
  - intros lat lon. now apply get_current_weather_http_error.
  - intros lat lon days Hd. now apply get_daily_forecast_http_error.
Qed.

Lemma city_label_with_code (resolved cc_text : string) :
  cc_text <> "" ->
  city_label_of resolved (PStr cc_text) = resolved ++ " (" ++ cc_text ++ ")".
Proof.
  intros Hne. unfold city_label_of. simpl.
  now destruct (String.eqb_spec cc_text "").
Qed.

Lemma lookup_and_report_location (app : WeatherApp) (city_input : string)
    (days : Z) (w w1 w2 : world) (lat lon : float) (resolved : string)
    (cc : value) (section : list (string * value)) (code : Z) :
  geocode_city app city_input w = (Val (lat, lon, resolved, cc), w1) ->
  get_current_weather app lat lon w1 = (Val (PDict section), w2) ->
  py_int (match dict_lookup "weathercode" section with
          | Some v => v
          | None => PInt (-999)
          end) = inr code ->
  exists after : list console_event,
    console (snd (lookup_and_report app city_input days w))
    = (console w2
       ++ Printed current_heading
          :: Printed ("Location   : " ++ city_label_of resolved cc)
          :: after)%list.
Proof.
  intros Hg Hc Hcode. unfold lookup_and_report, bind.
  rewrite Hg, Hc.
  rewrite (print_current_renders app _ lat lon section code w2 Hcode).
  set (w3 := shown w2 _).
  assert (Hrest : appending
                    (if days >? 0
                     then daily <- get_daily_forecast app lat lon days ;;
                          print_forecast app daily
                     else ret tt)).
  { destruct (days >? 0); [|apply appending_ret].
    apply appending_bind; [apply appending_get_daily_forecast|].
    intros daily. apply appending_print_forecast. }
  destruct (Hrest w3) as [events Hev]. unfold bind in Hev.
  rewrite Hev. subst w3. unfold shown, current_lines. simpl.
  rewrite <- app_assoc.
  eexists. reflexivity.
Qed.


End Reporting.

(** * Further properties of main.py *)

(** ** The clients on failing and malformed answers *)

Section ClientFailures.
Context {RT : PyRuntime}.

Lemma requested_requested (w : world) (a b : list request) :
  requested (requested w a) b = requested w (a ++ b)%list.
Proof. unfold requested. simpl. now rewrite app_assoc. Qed.

(** X1. For a day count in 1..16, a successful response whose JSON object
    has no [daily] key makes [get_daily_forecast] raise the ValueError
    "Daily forecast missing from API response."; the forecast request has
    been sent by then, and nothing else changed. *)
Theorem get_daily_forecast_missing_section (app : WeatherApp)
    (lat lon : float) (days : Z) (w : world) (r : response)
    (body : list (string * value)) :
  1 <= days <= 16 ->
  server w (sent w) (forecast_request app lat lon days) = Responded r ->
  successful r ->
  json_body r = inr (PDict body) ->
  dict_lookup "daily" body = None ->
  get_daily_forecast app lat lon days w
  = (Exc (mk_exn ValueError "Daily forecast missing from API response."),
     requested w [forecast_request app lat lon days]).
Proof.
  intros Hd Hsrv Hok Hbody Hmiss. unfold forecast_request in *.
  unfold get_daily_forecast. rewrite (in_range_test _ Hd).
  unfold bind, requests_get, raise_for_status, json.
  rewrite Hsrv, (status_passes _ Hok). simpl. rewrite Hbody. simpl.
  rewrite Hmiss. reflexivity.
Qed.

(** X2. When [requests.get] itself raises (no connection, timeout, an
    interrupt in flight), each of the three clients lets that very
    exception through, with the request recorded and nothing else changed:
    no retry, no wrapping. *)
Theorem clients_propagate_request_failures (app : WeatherApp) (w : world)
    (e : exn) :
  (forall city : string,
     server w (sent w) (geocode_request app city) = Failed e ->
     geocode_city app city w
     = (Exc e, requested w [geocode_request app city]))
  /\
  (forall lat lon : float,
     server w (sent w) (current_request app lat lon) = Failed e ->
     get_current_weather app lat lon w
     = (Exc e, requested w [current_request app lat lon]))
  /\
  (forall (lat lon : float) (days : Z),
     1 <= days <= 16 ->
     server w (sent w) (forecast_request app lat lon days) = Failed e ->
     get_daily_forecast app lat lon days w
     = (Exc e, requested w [forecast_request app lat lon days])).
Proof.
  repeat split.
  - intros city Hsrv. unfold geocode_request in *.
    unfold geocode_city, bind, requests_get. now rewrite Hsrv.
  - intros lat lon Hsrv. unfold current_request in *.
    unfold get_current_weather, bind, requests_get. now rewrite Hsrv.
  - intros lat lon days Hd Hsrv. unfold forecast_request in *.
    unfold get_daily_forecast. rewrite (in_range_test _ Hd).
    unfold bind, requests_get. now rewrite Hsrv.
Qed.


(** X4. When the first geocoding entry is an object without [latitude], or
    with a usable latitude and without [longitude], [geocode_city] raises
    the KeyError of the missing key: the coordinates have no default, unlike
    the name, the country code and the region. *)
Theorem geocode_city_entry_without_coordinates (app : WeatherApp)
    (city : string) (w : world) (r : response)
    (body top : list (string * value)) (rest : list value) :
  server w (sent w) (geocode_request app city) = Responded r ->
  successful r ->
  json_body r = inr (PDict body) ->
  dict_lookup "results" body = Some (PList (PDict top :: rest)) ->
  (dict_lookup "latitude" top = None ->
   fst (geocode_city app city w) = Exc (mk_exn KeyError "'latitude'"))
  /\
  (forall (lat_v : value) (lat : float),
     dict_lookup "latitude" top = Some lat_v -> py_float lat_v = inr lat ->
     dict_lookup "longitude" top = None ->
     fst (geocode_city app city w) = Exc (mk_exn KeyError "'longitude'")).
Proof.
  intros Hsrv Hok Hbody Hres. unfold geocode_request in Hsrv.
  split.
  - intros Hlat.
    unfold geocode_city, bind, requests_get, raise_for_status, json.
    rewrite Hsrv, (status_passes _ Hok). simpl. rewrite Hbody. simpl.
    rewrite Hres. simpl. rewrite Hlat. reflexivity.
  - intros lat_v lat Hlat Hlatf Hlon.
    unfold geocode_city, bind, requests_get, raise_for_status, json.
    rewrite Hsrv, (status_passes _ Hok). simpl. rewrite Hbody. simpl.
    rewrite Hres. simpl. rewrite Hlat. simpl. rewrite Hlatf. simpl.
    rewrite Hlon. reflexivity.
Qed.

(** X5. The clients trust the shape of the payload: on a successful
    response whose JSON is null, a boolean or a number, the two weather
    clients raise a TypeError at the membership test, and [geocode_city]
    raises an AttributeError at [data.get] for any body that is not an
    object. None of these is the ValueError of a missing section. *)
Theorem clients_on_non_object_body (app : WeatherApp) (w : world)
    (r : response) (data : value) :
  successful r ->
  json_body r = inr data ->
  (forall city : string,
     (forall d, data <> PDict d) ->
     server w (sent w) (geocode_request app city) = Responded r ->
     exists e : exn,
       fst (geocode_city app city w) = Exc e /\ exn_cls e = AttributeError)
  /\
  (forall lat lon : float,
     scalar data = true ->
     server w (sent w) (current_request app lat lon) = Responded r ->
     exists e : exn,
       fst (get_current_weather app lat lon w) = Exc e
       /\ exn_cls e = TypeError)
  /\
  (forall (lat lon : float) (days : Z),
     scalar data = true ->
     1 <= days <= 16 ->
     server w (sent w) (forecast_request app lat lon days) = Responded r ->
     exists e : exn,
       fst (get_daily_forecast app lat lon days w) = Exc e
       /\ exn_cls e = TypeError).
Proof.
  intros Hok Hbody. repeat split.
  - intros city Hnd Hsrv. unfold geocode_request in *.
    unfold geocode_city, bind, requests_get, raise_for_status, json.
    rewrite Hsrv, (status_passes _ Hok). simpl. rewrite Hbody. simpl.
    destruct data; simpl; try (eexists; split; reflexivity).
    exfalso. eapply Hnd. reflexivity.
  - intros lat lon Hsc Hsrv. unfold current_request in *.
    unfold get_current_weather, bind, requests_get, raise_for_status, json.
    rewrite Hsrv, (status_passes _ Hok). simpl. rewrite Hbody. simpl.
    destruct data; simpl in *; try discriminate;
      eexists; split; reflexivity.
  - intros lat lon days Hsc Hd Hsrv. unfold forecast_request in *.
    unfold get_daily_forecast. rewrite (in_range_test _ Hd).
    unfold bind, requests_get, raise_for_status, json.
    rewrite Hsrv, (status_passes _ Hok). simpl. rewrite Hbody. simpl.
    destruct data; simpl in *; try discriminate;
      eexists; split; reflexivity.
Qed.

End ClientFailures.

(** ** The presenter on incomplete data *)

Section PresenterEdges.
Context {RT : PyRuntime}.

(** X6. [print_current] reads and converts every field before its first
    [print]: a call either prints its six lines and returns, or raises
    having printed nothing and changed nothing. *)
Theorem print_current_all_or_nothing (app : WeatherApp) (label : string)
    (lat lon : float) (cw : value) (w : world) :
  (exists lines : list string,
     print_current app label lat lon cw w
     = (Val tt, shown w (map Printed lines))
     /\ List.length lines = 6%nat)
  \/
  (exists e : exn, print_current app label lat lon cw w = (Exc e, w)).
Proof.
  cbv beta iota delta [print_current bind lift].
  destruct (get_or cw "temperature" PNone) as [e|temp];
    [right; now exists e|].
  destruct (get_or cw "windspeed" PNone) as [e|wind];
    [right; now exists e|].
  destruct (get_or cw "weathercode" (PInt (-999))) as [e|wcode_v];
    [right; now exists e|].
  destruct (py_int wcode_v) as [e|wcode]; [right; now exists e|].
  left. eexists. split; [apply for_each_print|reflexivity].
Qed.

Lemma for_each_app {A : Type} (l1 l2 : list A) (body : A -> M unit)
    (w : world) :
  for_each (l1 ++ l2) body w
  = (for_each l1 body ;; for_each l2 body) w.
Proof.
  revert w. induction l1 as [|a l1 IH]; intros w; simpl.
  - reflexivity.
  - unfold bind in *. destruct (body a w) as [[[]|e] w']; [apply IH|reflexivity].
Qed.

(** [print_forecast] on sequences of the declared types: the heading, then
    the typed rounds over the indices of [time]. *)
Lemma print_forecast_typed (app : WeatherApp) (d : list (string * value))
    (dates : list string) (codes : list Z)
    (tmax tmin psum wmax : list float) (wdir : list Z) (w : world) :
  dict_lookup "time" d = Some (PList (map PStr dates)) ->
  dict_lookup "weathercode" d = Some (PList (map PInt codes)) ->
  dict_lookup "temperature_2m_max" d = Some (PList (map PFloat tmax)) ->
  dict_lookup "temperature_2m_min" d = Some (PList (map PFloat tmin)) ->
  dict_lookup "precipitation_sum" d = Some (PList (map PFloat psum)) ->
  dict_lookup "windspeed_10m_max" d = Some (PList (map PFloat wmax)) ->
  dict_lookup "winddirection_10m_dominant" d = Some (PList (map PInt wdir)) ->
  print_forecast app (PDict d) w
  = for_each (seq 0 (List.length dates))
      (typed_round dates codes tmax tmin psum wmax wdir)
      (shown w [Printed forecast_heading]).
Proof.
  intros Ht Hc Hhi Hlo Hp Hw Hdir.
  cbv beta iota delta [print_forecast bind lift get_or].
  rewrite print_shown, Ht, Hc, Hhi, Hlo, Hp, Hw, Hdir.
  cbv beta iota delta [py_len]. rewrite length_map.
  reflexivity.
Qed.

(** The typed rounds below a bound that every sequence reaches. *)
Lemma typed_rounds_below (dates : list string) (codes : list Z)
    (tmax tmin psum wmax : list float) (wdir : list Z) (M : nat) (w : world) :
  (M <= List.length dates)%nat -> (M <= List.length codes)%nat ->
  (M <= List.length tmax)%nat -> (M <= List.length tmin)%nat ->
  (M <= List.length psum)%nat -> (M <= List.length wmax)%nat ->
  (M <= List.length wdir)%nat ->
  exists lines : list string,
    for_each (seq 0 M) (typed_round dates codes tmax tmin psum wmax wdir) w
    = (Val tt, shown w (map Printed lines))
    /\ Forall2
         (fun i line =>
            forall (date : string) (code : Z),
              nth_error dates i = Some date -> nth_error codes i = Some code ->
              shows_day date (describe_code code) line)
         (seq 0 M) lines.
Proof.
  intros Ld Lc Lhi Llo Lp Lw Ldir.
  apply for_each_rows. intros i Hi. apply in_seq in Hi.
  destruct (nth_error_below dates i) as [date Hd]; [lia|].
  destruct (nth_error_below codes i) as [code Hc]; [lia|].
  destruct (nth_error_below tmax i) as [hi Hhi]; [lia|].
  destruct (nth_error_below tmin i) as [lo Hlo]; [lia|].
  destruct (nth_error_below psum i) as [prec Hp]; [lia|].
  destruct (nth_error_below wmax i) as [wind Hw]; [lia|].
  destruct (nth_error_below wdir i) as [dir Hdir]; [lia|].
  exists (day_line date (describe_code code) lo hi prec wind dir). split.
  - intros date' code' Hd' Hc'.
    rewrite Hd in Hd'. rewrite Hc in Hc'. inversion Hd'; inversion Hc'; subst.
    apply day_line_shows_day.
  - intros w'. unfold typed_round, bind, lift, getitem_index at 1.
    rewrite (map_nth_error PInt _ _ Hc). cbn [py_int].
    rewrite (forecast_line_typed _ _ _ _ _ _ _ _ _ _ _ _ _ _
               Hd Hlo Hhi Hp Hw Hdir).
    apply print_shown.
Qed.

(** The day lines of a forecast, related to the indices they were printed
    for. *)
Lemma rows_by_index (dates : list string) (codes : list Z)
    (lines : list string) :
  Forall2
    (fun i line =>
       forall (date : string) (code : Z),
         nth_error dates i = Some date -> nth_error codes i = Some code ->
         shows_day date (describe_code code) line)
    (seq 0 (List.length dates)) lines ->
  List.length lines = List.length dates
  /\ forall (i : nat) (date : string) (code : Z) (line : string),
       nth_error dates i = Some date ->
       nth_error codes i = Some code ->
       nth_error lines i = Some line ->
       shows_day date (describe_code code) line.
Proof.
  intros HF. split.
  - apply Forall2_length in HF. now rewrite length_seq in HF.
  - intros i date code line Hd Hcode Hline.
    assert (Hi : nth_error (seq 0 (List.length dates)) i = Some i).
    { rewrite nth_error_seq.
      assert (Hlt : (i < List.length dates)%nat)
        by (apply nth_error_Some; congruence).
      apply Nat.ltb_lt in Hlt. now rewrite Hlt. }
    exact (Forall2_nth_error _ _ _ HF i i line Hi Hline date code Hd Hcode).
Qed.

Lemma print_forecast_days (app : WeatherApp)
    (d : list (string * value)) (dates : list string) (codes : list Z)
    (tmax tmin psum wmax : list float) (wdir : list Z) (w : world) :
  dict_lookup "time" d = Some (PList (map PStr dates)) ->
  dict_lookup "weathercode" d = Some (PList (map PInt codes)) ->
  dict_lookup "temperature_2m_max" d = Some (PList (map PFloat tmax)) ->
  dict_lookup "temperature_2m_min" d = Some (PList (map PFloat tmin)) ->
  dict_lookup "precipitation_sum" d = Some (PList (map PFloat psum)) ->
  dict_lookup "windspeed_10m_max" d = Some (PList (map PFloat wmax)) ->
  dict_lookup "winddirection_10m_dominant" d = Some (PList (map PInt wdir)) ->
  (List.length dates <= List.length codes)%nat ->
  (List.length dates <= List.length tmax)%nat ->
  (List.length dates <= List.length tmin)%nat ->
  (List.length dates <= List.length psum)%nat ->
  (List.length dates <= List.length wmax)%nat ->
  (List.length dates <= List.length wdir)%nat ->
  exists lines : list string,
    print_forecast app (PDict d) w
    = (Val tt, shown w (Printed forecast_heading :: map Printed lines))
    /\ Forall2
         (fun i line =>
            forall (date : string) (code : Z),
              nth_error dates i = Some date -> nth_error codes i = Some code ->
              shows_day date (describe_code code) line)
         (seq 0 (List.length dates)) lines.
Proof.
  intros Ht Hc Hhi Hlo Hp Hw Hdir Lc Lhi Llo Lp Lw Ldir.
  destruct (typed_rounds_below dates codes tmax tmin psum wmax wdir
              (List.length dates) (shown w [Printed forecast_heading])
              (le_n _) Lc Lhi Llo Lp Lw Ldir) as [lines [Hrun HF]].
  exists lines. split; [|exact HF].
  rewrite (print_forecast_typed app d _ _ _ _ _ _ _ w
             Ht Hc Hhi Hlo Hp Hw Hdir).
  rewrite Hrun. now rewrite shown_shown.
Qed.

(** X7. [print_forecast] takes the number of days from [time] alone: when
    the other six sequences are longer than [time], their surplus entries
    are never read, and exactly one line per entry of [time] follows the
    heading, each showing its date and description. *)
Theorem print_forecast_follows_time (app : WeatherApp)
    (d : list (string * value)) (dates : list string) (codes : list Z)
    (tmax tmin psum wmax : list float) (wdir : list Z) (w : world) :
  dict_lookup "time" d = Some (PList (map PStr dates)) ->
  dict_lookup "weathercode" d = Some (PList (map PInt codes)) ->
  dict_lookup "temperature_2m_max" d = Some (PList (map PFloat tmax)) ->
  dict_lookup "temperature_2m_min" d = Some (PList (map PFloat tmin)) ->
  dict_lookup "precipitation_sum" d = Some (PList (map PFloat psum)) ->
  dict_lookup "windspeed_10m_max" d = Some (PList (map PFloat wmax)) ->
  dict_lookup "winddirection_10m_dominant" d = Some (PList (map PInt wdir)) ->
  (List.length dates <= List.length codes)%nat ->
  (List.length dates <= List.length tmax)%nat ->
  (List.length dates <= List.length tmin)%nat ->
  (List.length dates <= List.length psum)%nat ->
  (List.length dates <= List.length wmax)%nat ->
  (List.length dates <= List.length wdir)%nat ->
  exists lines : list string,
    print_forecast app (PDict d) w
    = (Val tt, shown w (Printed forecast_heading :: map Printed lines))
    /\ List.length lines = List.length dates
    /\ forall (i : nat) (date : string) (code : Z) (line : string),
         nth_error dates i = Some date ->
         nth_error codes i = Some code ->
         nth_error lines i = Some line ->
         shows_day date (describe_code code) line.
Proof.
  intros Ht Hc Hhi Hlo Hp Hw Hdir Lc Lhi Llo Lp Lw Ldir.
  destruct (print_forecast_days app d dates codes tmax tmin psum wmax wdir w
              Ht Hc Hhi Hlo Hp Hw Hdir Lc Lhi Llo Lp Lw Ldir)
    as [lines [Hrun HF]].
  exists lines. split; [exact Hrun|].
  now apply rows_by_index.
Qed.

(** X8. When [weathercode] has fewer entries than [time] (and the other
    sequences reach at least as far as [weathercode]), [print_forecast]
    prints the heading and one line for each day that has a code, then
    raises IndexError at the first day without one; the lines printed so
    far stay on the console. *)
Theorem print_forecast_short_codes (app : WeatherApp)
    (d : list (string * value)) (dates : list string) (codes : list Z)
    (tmax tmin psum wmax : list float) (wdir : list Z) (w : world) :
  dict_lookup "time" d = Some (PList (map PStr dates)) ->
  dict_lookup "weathercode" d = Some (PList (map PInt codes)) ->
  dict_lookup "temperature_2m_max" d = Some (PList (map PFloat tmax)) ->
  dict_lookup "temperature_2m_min" d = Some (PList (map PFloat tmin)) ->
  dict_lookup "precipitation_sum" d = Some (PList (map PFloat psum)) ->
  dict_lookup "windspeed_10m_max" d = Some (PList (map PFloat wmax)) ->
  dict_lookup "winddirection_10m_dominant" d = Some (PList (map PInt wdir)) ->
  (List.length codes < List.length dates)%nat ->
  (List.length codes <= List.length tmax)%nat ->
  (List.length codes <= List.length tmin)%nat ->
  (List.length codes <= List.length psum)%nat ->
  (List.length codes <= List.length wmax)%nat ->
  (List.length codes <= List.length wdir)%nat ->
  exists lines : list string,
    print_forecast app (PDict d) w
    = (Exc (mk_exn IndexError "list index out of range"),
       shown w (Printed forecast_heading :: map Printed lines))
    /\ List.length lines = List.length codes.
Proof.
  intros Ht Hc Hhi Hlo Hp Hw Hdir Lc Lhi Llo Lp Lw Ldir.
  set (M := List.length codes) in *.
  destruct (typed_rounds_below dates codes tmax tmin psum wmax wdir
              M (shown w [Printed forecast_heading])
              (Nat.lt_le_incl _ _ Lc) (le_n _) Lhi Llo Lp Lw Ldir)
    as [lines [Hrun HF]].
  exists lines. split.
  - rewrite (print_forecast_typed app d _ _ _ _ _ _ _ w
               Ht Hc Hhi Hlo Hp Hw Hdir).
    assert (Hsplit : seq 0 (List.length dates)
                     = (seq 0 M ++ M :: seq (S M) (List.length dates - S M))%list).
    { replace (List.length dates) with (M + S (List.length dates - S M))%nat
        at 1 by lia.
      rewrite seq_app. reflexivity. }
    rewrite Hsplit, for_each_app. unfold bind at 1. rewrite Hrun.
    cbn [for_each]. unfold bind at 1.
    assert (Hnone : nth_error (map (@PInt float) codes) M = None)
      by (apply nth_error_None; rewrite length_map; subst M; lia).
    unfold typed_round, bind, lift, getitem_index at 1.
    rewrite Hnone. cbn. now rewrite shown_shown.
  - apply Forall2_length in HF. now rewrite length_seq in HF.
Qed.

End PresenterEdges.

(** ** The descriptions identify the codes *)

Lemma string_of_Z_injective (n m : Z) :
  string_of_Z n = string_of_Z m -> n = m.
Proof.
  unfold string_of_Z. intros H.
  apply (f_equal NilZero.int_of_string) in H.
  assert (Hnn : forall z : Z,
             NilZero.int_of_string (NilZero.string_of_int (Z.to_int z))
             = Some (Z.to_int z)).
  { intros z. apply NilZero.isi.
    - destruct z; simpl; try discriminate.
      intros Hp. inversion Hp as [Hu].
      now apply DecimalPos.Unsigned.to_uint_nonnil in Hu.
    - destruct z; simpl; try discriminate.
      intros Hp. inversion Hp as [Hu].
      now apply DecimalPos.Unsigned.to_uint_nonnil in Hu. }
  rewrite !Hnn in H. inversion H as [Hi].
  now apply DecimalZ.to_int_inj.
Qed.

Lemma code_lookup_in (n : Z) (text : string) (table : list (Z * string)) :
  code_lookup n table = Some text -> In (n, text) table.
Proof.
  induction table as [|[k t] rest IH]; simpl; [discriminate|].
  destruct (Z.eqb_spec n k) as [->|Hne].
  - intros H. inversion H. now left.
  - intros H. right. now apply IH.
Qed.

Lemma same_text_same_code (table : list (Z * string)) (n m : Z)
    (text : string) :
  NoDup (map snd table) ->
  In (n, text) table -> In (m, text) table -> n = m.
Proof.
  induction table as [|[k t] rest IH]; simpl; intros Hnd Hn Hm.
  - contradiction.
  - inversion Hnd as [|? ? Hk Hrest]; subst.
    destruct Hn as [Hn|Hn], Hm as [Hm|Hm].
    + congruence.
    + inversion Hn; subst. exfalso. apply Hk.
      apply (in_map snd) in Hm. exact Hm.
    + inversion Hm; subst. exfalso. apply Hk.
      apply (in_map snd) in Hn. exact Hn.
    + now apply IH.
Qed.

Lemma WEATHER_CODE_MAP_texts_distinct :
  NoDup (map snd WEATHER_CODE_MAP).
Proof.
  simpl.
  repeat (constructor; [simpl; intuition discriminate|]).
  constructor.
Qed.

Lemma WEATHER_CODE_MAP_no_fallback_text (n : Z) (text : string) :
  In (n, text) WEATHER_CODE_MAP -> prefix "Code " text = false.
Proof.
  simpl. intros H.
  repeat (destruct H as [H|H]; [inversion H; reflexivity|]).
  contradiction.
Qed.

Lemma fallback_text_prefix (s : string) : prefix "Code " ("Code " ++ s) = true.
Proof. simpl. now destruct s. Qed.

(** X9. [describe_code] never gives two codes the same text: the texts of
    the table are pairwise different, none of them starts with "Code ", and
    the fallback spells the code out. A description therefore tells which
    code it stands for. *)
Theorem describe_code_injective (n m : Z) :
  describe_code n = describe_code m -> n = m.
Proof.
  unfold describe_code.
  destruct (code_lookup n WEATHER_CODE_MAP) as [tn|] eqn:En,
           (code_lookup m WEATHER_CODE_MAP) as [tm|] eqn:Em; intros H.
  - subst tm. apply code_lookup_in in En, Em.
    exact (same_text_same_code _ _ _ _ WEATHER_CODE_MAP_texts_distinct En Em).
  - apply code_lookup_in in En.
    apply WEATHER_CODE_MAP_no_fallback_text in En.
    rewrite H, fallback_text_prefix in En. discriminate.
  - apply code_lookup_in in Em.
    apply WEATHER_CODE_MAP_no_fallback_text in Em.
    rewrite <- H, fallback_text_prefix in Em. discriminate.
  - apply string_of_Z_injective. now inversion H.
Qed.

(** ** The prompt loop over several rounds *)

Section PromptRounds.
Context {RT : PyRuntime}.

Lemma rejected_round (w : world) (s : string) (rest : list keyboard_event) :
  keyboard w = Line s :: rest -> rejected s ->
  ask_forecast_days_interactively w
  = ask_forecast_days_interactively
      (shown (typed w rest) [Prompted days_prompt; Printed retry_text]).
Proof.
  intros Hk Hr. rewrite (ask_round w s rest Hk). unfold rejected in Hr.
  destruct (int_of_string (entered s)) as [n|]; [|reflexivity].
  destruct (Z.leb_spec 0 n), (Z.leb_spec n 16); simpl; auto; lia.
Qed.

Lemma accepted_round (w : world) (s : string) (d : Z)
    (rest : list keyboard_event) :
  keyboard w = Line s :: rest -> accepted s d ->
  ask_forecast_days_interactively w
  = (Val d, shown (typed w rest) [Prompted days_prompt]).
Proof.
  intros Hk [Hd Hr]. rewrite (ask_round w s rest Hk), Hd.
  destruct (Z.leb_spec 0 d), (Z.leb_spec d 16); simpl; auto; lia.
Qed.

Lemma shown_typed_again (w : world) (rest rest' : list keyboard_event)
    (a b : list console_event) :
  shown (typed (shown (typed w rest') a) rest) b
  = shown (typed w rest) (a ++ b)%list.
Proof. unfold shown, typed. simpl. now rewrite app_assoc. Qed.

(** X10. The prompt loop returns the first acceptable line: when the user
    types any number of lines the loop turns down (not an integer, or one
    outside 0..16) and then a line holding [d] in 0..16, the loop returns
    [d]; by then it has prompted once per line and printed the retry text
    once per turned-down line, and the lines after the accepted one are
    left unread. *)
Theorem ask_returns_first_accepted (bad : list string) (good : string)
    (d : Z) (rest : list keyboard_event) :
  Forall rejected bad ->
  accepted good d ->
  forall w : world,
    keyboard w = (map Line bad ++ Line good :: rest)%list ->
    ask_forecast_days_interactively w
    = (Val d,
       shown (typed w rest)
         (retries (List.length bad) ++ [Prompted days_prompt])).
Proof.
  intros Hbad Hgood. induction Hbad as [|s bad Hs _ IH]; intros w Hk.
  - simpl in *. now apply accepted_round with (s := good).
  - simpl in Hk.
    rewrite (rejected_round w s _ Hk Hs).
    rewrite (IH (shown (typed w (map Line bad ++ Line good :: rest)%list)
                   [Prompted days_prompt; Printed retry_text]) eq_refl).
    now rewrite shown_typed_again.
Qed.

Lemma ask_loop_raises (rounds : nat) :
  forall (w w' : world) (e : exn),
    (List.length (keyboard w) < rounds)%nat ->
    ask_loop rounds w = (Exc e, w') ->
    (e = mk_exn EOFError "EOF when reading a line" /\ keyboard w' = [])
    \/ e = mk_exn KeyboardInterrupt "".
Proof.
  induction rounds as [|k IH]; intros w w' e Hlen Hrun; [lia|].
  rewrite ask_loop_round in Hrun. unfold bind, input in Hrun.
  destruct (keyboard w) as [|[s|] rest] eqn:Hk.
  - inversion Hrun; subst. now left.
  - simpl in Hlen.
    destruct (int_of_string (entered s)) as [n|].
    + destruct ((0 <=? n) && (n <=? 16)); [discriminate|].
      unfold print in Hrun. cbn [keyboard console server sent] in Hrun.
      apply IH in Hrun; [exact Hrun|simpl; lia].
    + unfold print in Hrun. cbn [keyboard console server sent] in Hrun.
      apply IH in Hrun; [exact Hrun|simpl; lia].
  - inversion Hrun; subst. now right.
Qed.

(** X11. The prompt loop raises in two cases only: the input ends (the
    EOFError of [input], with nothing left to read) or the user interrupts
    (KeyboardInterrupt). A line that is not a number never raises out of
    the loop: the ValueError of [int] is passed over. *)
Theorem ask_raises_only_at_end_or_interrupt (w w' : world) (e : exn) :
  ask_forecast_days_interactively w = (Exc e, w') ->
  (e = mk_exn EOFError "EOF when reading a line" /\ keyboard w' = [])
  \/ e = mk_exn KeyboardInterrupt "".
Proof.
  unfold ask_forecast_days_interactively. apply ask_loop_raises. lia.
Qed.

Lemma decimal_accepted (d : Z) : 0 <= d <= 16 -> accepted (string_of_Z d) d.
Proof.
  intros Hd.
  assert (Hcases : d = 0 \/ d = 1 \/ d = 2 \/ d = 3 \/ d = 4 \/ d = 5
                   \/ d = 6 \/ d = 7 \/ d = 8 \/ d = 9 \/ d = 10 \/ d = 11
                   \/ d = 12 \/ d = 13 \/ d = 14 \/ d = 15 \/ d = 16) by lia.
  unfold accepted.
  repeat (destruct Hcases as [->|Hcases]; [split; [reflexivity|lia]|]).
  subst. split; [reflexivity|lia].
Qed.

(** X12. Every day count the program accepts can be typed as it is
    written: for each [d] from 0 to 16, answering the prompt with the
    decimal digits of [d] returns [d] at once, with no retry text. *)
Theorem ask_accepts_decimal_day_counts (d : Z) (w : world)
    (rest : list keyboard_event) :
  0 <= d <= 16 ->
  keyboard w = Line (string_of_Z d) :: rest ->
  ask_forecast_days_interactively w
  = (Val d, shown (typed w rest) [Prompted days_prompt]).
Proof.
  intros Hd Hk. apply accepted_round with (s := string_of_Z d); [exact Hk|].
  now apply decimal_accepted.
Qed.

End PromptRounds.

(** ** Whole sessions *)

Section UnattendedFrames.
Context {RT : PyRuntime}.

Lemma unattended_here {A : Type} (m : M A) :
  (forall w : world, snd (m w) = w) -> unattended m.
Proof.
  intros H w. rewrite H. split; [reflexivity|].
  exists []. simpl. now rewrite app_nil_r.
Qed.

Lemma unattended_ret {A : Type} (a : A) : unattended (ret a).
Proof. now apply unattended_here. Qed.

Lemma unattended_raise {A : Type} (c : exn_class) (msg : string) :
  unattended (@raise _ A c msg).
Proof. now apply unattended_here. Qed.

Lemma unattended_lift {A : Type} (r : res A) : unattended (lift r).
Proof. apply unattended_here. intros w. unfold lift. now destruct r. Qed.

Lemma unattended_raise_for_status (r : response) :
  unattended (raise_for_status r).
Proof.
  unfold raise_for_status.
  destruct ((400 <=? status_code r) && (status_code r <? 600));
    [apply unattended_raise|apply unattended_ret].
Qed.

Lemma unattended_json (r : response) : unattended (json r).
Proof.
  unfold json.
  destruct (json_body r); [apply unattended_raise|apply unattended_ret].
Qed.

Lemma unattended_print (text : string) : unattended (print text).
Proof. intros w. split; [reflexivity|]. now exists [text]. Qed.

Lemma unattended_requests_get (url : string)
    (params : list (string * value)) (t : float) :
  unattended (requests_get url params t).
Proof.
  intros w. unfold requests_get.
  destruct (server w (sent w) _); simpl; (split; [reflexivity|]);
    exists []; simpl; now rewrite app_nil_r.
Qed.

Lemma unattended_bind {A B : Type} (m : M A) (k : A -> M B) :
  unattended m -> (forall a : A, unattended (k a)) -> unattended (bind m k).
Proof.
  intros Hm Hk w. unfold bind. destruct (Hm w) as [Hkey [texts Hout]].
  destruct (m w) as [[a|e] w']; simpl in *.
  - destruct (Hk a w') as [Hkey' [texts' Hout']].
    split; [congruence|].
    exists (texts ++ texts')%list.
    now rewrite Hout', Hout, map_app, app_assoc.
  - split; [exact Hkey|now exists texts].
Qed.

Lemma unattended_for_each {A : Type} (l : list A) (body : A -> M unit) :
  (forall a : A, unattended (body a)) -> unattended (for_each l body).
Proof.
  intros Hbody. induction l as [|a rest IH]; simpl.
  - apply unattended_ret.
  - apply unattended_bind; [apply Hbody|intros _; exact IH].
Qed.

Lemma unattended_try_except {A : Type} (body : M A)
    (clauses : list (except_target * (exn -> M A))) :
  unattended body ->
  (forall (e : exn) (h : M A), select_clause clauses e = Some h -> unattended h) ->
  unattended (try_except body clauses).
Proof.
  intros Hb Hh w. unfold try_except. destruct (Hb w) as [Hkey [texts Hout]].
  destruct (body w) as [[a|e] w']; simpl in *.
  - split; [exact Hkey|now exists texts].
  - destruct (select_clause clauses e) as [h|] eqn:E.
    + destruct (Hh e h E w') as [Hkey' [texts' Hout']].
      split; [congruence|].
      exists (texts ++ texts')%list.
      now rewrite Hout', Hout, map_app, app_assoc.
    + split; [exact Hkey|now exists texts].
Qed.

End UnattendedFrames.

(** Walks through a statement built from the steps above. *)
Ltac unattended_steps :=
  repeat first
    [ apply unattended_ret | apply unattended_raise | apply unattended_lift
    | apply unattended_print | apply unattended_requests_get
    | apply unattended_raise_for_status | apply unattended_json
    | apply unattended_bind; [|intros ?]
    | apply unattended_for_each; intros ?
    | match goal with
      | |- unattended (match ?p with _ => _ end) => destruct p
      end ].

Section Sessions.
Context {RT : PyRuntime}.

Lemma unattended_lookup_and_report (app : WeatherApp) (city_input : string)
    (days : Z) : unattended (lookup_and_report app city_input days).
Proof.
  unfold lookup_and_report, geocode_city, get_current_weather,
    get_daily_forecast, print_current, print_forecast.
  unattended_steps.
Qed.

Lemma main_with_arguments (args : Args) (c : string) (n : Z) (w : world) :
  city args = Some c -> c <> "" ->
  forecast args = Some n -> 0 <= n <= 16 ->
  main args w
  = try_except (lookup_and_report (mk_app (timeout_arg args)) (strip c) n)
      main_clauses w.
Proof.
  intros Hc Hne Hf Hn.
  unfold main, try_except, main_steps, bind, acquire_city,
    acquire_forecast_days.
  rewrite Hc, Hf.
  destruct (String.eqb_spec c "") as [->|_]; [contradiction|].
  assert (Ht : (0 <=? n) && (n <=? 16) = true).
  { destruct (Z.leb_spec 0 n), (Z.leb_spec n 16); simpl; auto; lia. }
  rewrite Ht. reflexivity.
Qed.

(** X13. With a non-empty [--city] and a [--forecast] in 0..16 on the
    command line, the session is not interactive: [main] reads nothing from
    the keyboard, writes no prompt, and everything it adds to the console
    is printed lines. *)
Theorem main_with_arguments_is_unattended (args : Args) (c : string) (n : Z)
    (w : world) :
  city args = Some c -> c <> "" ->
  forecast args = Some n -> 0 <= n <= 16 ->
  keyboard (snd (main args w)) = keyboard w
  /\ exists texts : list string,
       console (snd (main args w)) = (console w ++ map Printed texts)%list.
Proof.
  intros Hc Hne Hf Hn. rewrite (main_with_arguments args c n w Hc Hne Hf Hn).
  apply unattended_try_except.
  - apply unattended_lookup_and_report.
  - intros e h. rewrite select_main_clause. intros Hh. inversion Hh.
    apply unattended_print.
Qed.

End Sessions.

Section SessionRequests.
Context {RT : PyRuntime}.

Lemma acquire_forecast_days_in_range (args : Args) (w w' : world) (d : Z) :
  acquire_forecast_days args w = (Val (Some d), w') -> 0 <= d <= 16.
Proof.
  unfold acquire_forecast_days. destruct (forecast args) as [n|].
  - destruct (Z.leb_spec 0 n) as [Hlo|Hlo], (Z.leb_spec n 16) as [Hhi|Hhi];
      simpl; intros Hrun; inversion Hrun; subst; lia.
  - unfold bind.
    destruct (ask_forecast_days_interactively w) as [[v|e] w1] eqn:Hask;
      intros H; inversion H; subst.
    unfold ask_forecast_days_interactively in Hask.
    eapply ask_loop_in_range; exact Hask.
Qed.

Lemma lookup_and_report_requests (app : WeatherApp) (city_input : string)
    (days : Z) (w : world) :
  exists new : list request,
    sent (snd (lookup_and_report app city_input days w)) = (sent w ++ new)%list
    /\ (new = [geocode_request app city_input]
        \/ exists lat lon : float,
             new = [geocode_request app city_input; current_request app lat lon]
             \/ (1 <= days <= 16
                 /\ new = session_requests app city_input lat lon days)).
Proof.
  unfold lookup_and_report, bind.
  assert (Hg := geocode_city_world app city_input w).
  destruct (geocode_city app city_input w) as [[[[[lat lon] resolved] cc]|e] w1];
    simpl in Hg; subst w1.
  2:{ exists [geocode_request app city_input]. split; [reflexivity|now left]. }
  assert (Hc := get_current_weather_world app lat lon
                  (requested w [geocode_request app city_input])).
  destruct (get_current_weather app lat lon _) as [[cw|e] w2];
    simpl in Hc; subst w2.
  2:{ exists [geocode_request app city_input; current_request app lat lon].
      split; [simpl; now rewrite <- app_assoc|]. right. exists lat, lon. now left. }
  set (w2 := requested (requested w _) _).
  assert (Hp := offline_print_current app (city_label_of resolved cc)
                  lat lon cw w2).
  destruct (print_current app _ lat lon cw w2) as [[[]|e] w3]; simpl in Hp.
  2:{ exists [geocode_request app city_input; current_request app lat lon].
      split; [simpl; rewrite Hp; simpl; now rewrite <- app_assoc|].
      right. exists lat, lon. now left. }
  assert (Hw3 : sent w3
                = (sent w ++ [geocode_request app city_input;
                              current_request app lat lon])%list).
  { rewrite Hp. simpl. now rewrite <- app_assoc. }
  destruct (days >? 0) eqn:Hpos.
  - destruct (Z.leb_spec days 16) as [Hle|Hgt].
    + assert (Hd : 1 <= days <= 16).
      { rewrite Z.gtb_ltb in Hpos. apply Z.ltb_lt in Hpos. lia. }
      exists (session_requests app city_input lat lon days). split.
      * assert (Hf := forecast_step_sent app lat lon days w3 Hd).
        unfold bind in Hf. rewrite Hf, Hw3. unfold session_requests.
        now rewrite <- app_assoc.
      * right. exists lat, lon. right. now split.
    + rewrite (get_daily_forecast_rejects app lat lon days w3)
        by (right; lia).
      exists [geocode_request app city_input; current_request app lat lon].
      split; [exact Hw3|]. right. exists lat, lon. now left.
  - exists [geocode_request app city_input; current_request app lat lon].
    split; [exact Hw3|]. right. exists lat, lon. now left.
Qed.

(** X14. Whatever the command line, the keyboard and the server do, a
    session sends at most three requests, in a fixed order: the geocoding
    request, then the current-weather request, then the forecast request.
    The forecast request is only ever sent for a day count in 1..16. *)
Theorem main_sends_requests_in_order (args : Args) (w : world) :
  exists new : list request,
    sent (snd (main args w)) = (sent w ++ new)%list
    /\ (new = []
        \/ exists city_input : string,
             let app := mk_app (timeout_arg args) in
             new = [geocode_request app city_input]
             \/ exists lat lon : float,
                  new = [geocode_request app city_input;
                         current_request app lat lon]
                  \/ exists days : Z,
                       1 <= days <= 16
                       /\ new = session_requests app city_input lat lon days).
Proof.
  rewrite main_sent. unfold main_steps, bind.
  assert (H1 := offline_acquire_city args w).
  destruct (acquire_city args w) as [[[city_input|]|e] w1]; simpl in H1.
  2,3: exists []; split; [simpl; now rewrite app_nil_r, H1|now left].
  assert (H2 := offline_acquire_forecast_days args w1).
  destruct (acquire_forecast_days args w1) as [[[days|]|e] w2]; simpl in H2.
  2,3: exists []; split; [simpl; rewrite app_nil_r; congruence|now left].
  destruct (lookup_and_report_requests (mk_app (timeout_arg args))
              city_input days w2) as [new [Hsent Hnew]].
  exists new. split; [rewrite Hsent; congruence|].
  right. exists city_input. simpl.
  destruct Hnew as [Hnew|[lat [lon [Hnew|[Hd Hnew]]]]].
  - now left.
  - right. exists lat, lon. now left.
  - right. exists lat, lon. right. now exists days.
Qed.

Lemma acquire_city_prompted (args : Args) (w : world) (s : string)
    (rest : list keyboard_event) :
  city args = None \/ city args = Some "" ->
  keyboard w = Line s :: rest ->
  acquire_city args w
  = if (strip s =? "")%string
    then (Val None,
          shown (typed w rest)
            [Prompted "Enter a city name: ";
             Printed "No city entered. Exiting."])
    else (Val (Some (strip s)),
          shown (typed w rest) [Prompted "Enter a city name: "]).
Proof.
  intros Hc Hk.
  assert (Hrun :
    (line <- input "Enter a city name: " ;;
     if (strip line =? "")%string
     then print "No city entered. Exiting." ;; ret None
     else ret (Some (strip line))) w
    = if (strip s =? "")%string
      then (Val None,
            shown (typed w rest)
              [Prompted "Enter a city name: ";
               Printed "No city entered. Exiting."])
      else (Val (Some (strip s)),
            shown (typed w rest) [Prompted "Enter a city name: "])).
  { unfold bind, input. rewrite Hk.
    destruct (strip s =? "")%string; [|reflexivity].
    unfold print, ret, shown, typed. simpl. now rewrite <- app_assoc. }
  unfold acquire_city. destruct Hc as [Hc|Hc]; rewrite Hc; exact Hrun.
Qed.

(** X15. Without a [--city] (or with an empty one) the city is prompted
    for. A blank answer ends the session at once: [main] prints "No city
    entered. Exiting.", asks nothing more, sends no request and returns
    normally. Any other answer is taken, stripped of its surrounding
    blanks. *)
Theorem main_without_city (args : Args) (w : world) (s : string)
    (rest : list keyboard_event) :
  city args = None \/ city args = Some "" ->
  keyboard w = Line s :: rest ->
  (strip s = "" ->
   main args w
   = (Val tt,
      shown (typed w rest)
        [Prompted "Enter a city name: ";
         Printed "No city entered. Exiting."]))
  /\
  (strip s <> "" ->
   acquire_city args w
   = (Val (Some (strip s)),
      shown (typed w rest) [Prompted "Enter a city name: "])).
Proof.
  intros Hc Hk. assert (Hrun := acquire_city_prompted args w s rest Hc Hk).
  split.
  - intros Hs. rewrite Hs in Hrun. simpl in Hrun.
    unfold main, try_except, main_steps, bind. now rewrite Hrun.
  - intros Hs. destruct (String.eqb_spec (strip s) ""); [contradiction|].
    exact Hrun.
Qed.

(** X16. The emptiness check guards the prompt only. A [--city] argument
    made of blanks is not empty, so it is taken and stripped to the empty
    name without a word; with a valid [--forecast] the session then goes on
    and its first request asks the geocoder for the empty name. *)
Theorem main_with_blank_city_argument (args : Args) (c : string) (w : world) :
  city args = Some c -> c <> "" -> strip c = "" ->
  acquire_city args w = (Val (Some ""), w)
  /\
  (forall n : Z,
     forecast args = Some n -> 0 <= n <= 16 ->
     exists more : list request,
       sent (snd (main args w))
       = (sent w ++ geocode_request (mk_app (timeout_arg args)) "" :: more)%list).
Proof.
  intros Hc Hne Hs. split.
  - unfold acquire_city. rewrite Hc.
    destruct (String.eqb_spec c "") as [->|_]; [contradiction|].
    simpl. now rewrite Hs.
  - intros n Hf Hn.
    rewrite (main_with_arguments args c n w Hc Hne Hf Hn), Hs.
    rewrite (offline_try_except _ _ offline_main_clauses).
    destruct (lookup_and_report_requests (mk_app (timeout_arg args)) "" n w)
      as [new [Hsent Hnew]].
    rewrite Hsent.
    destruct Hnew as [->|[lat [lon [->|[_ ->]]]]]; eexists; reflexivity.
Qed.

End SessionRequests.

Section SessionRuns.
Context {RT : PyRuntime}.

Lemma geocode_city_run (app : WeatherApp) (city : string) (w : world)
    (top : list (string * value)) (lat lon : float) :
  geocoder_answers w app city top lat lon ->
  geocode_city app city w
  = (Val (lat, lon, display_name top, field "country_code" top),
     requested w [geocode_request app city]).
Proof.
  intros (r & body & rest & lat_v & lon_v
          & Hsrv & Hok & Hbody & Hres & Hlat & Hlatf & Hlon & Hlonf).
  rewrite (surjective_pairing (geocode_city app city w)).
  rewrite geocode_city_world.
  now rewrite (geocode_city_first_entry app city w r body top rest
                 lat_v lon_v lat lon Hsrv Hok Hbody Hres Hlat Hlatf Hlon Hlonf).
Qed.

Lemma get_current_weather_run (app : WeatherApp) (lat lon : float) (w : world)
    (section : list (string * value)) (code : Z) :
  weather_answers w (sent w) app lat lon section code ->
  get_current_weather app lat lon w
  = (Val (PDict section), requested w [current_request app lat lon]).
Proof.
  intros (r & body & Hsrv & Hok & Hbody & Hcw & _).
  rewrite (surjective_pairing (get_current_weather app lat lon w)).
  rewrite get_current_weather_world.
  now rewrite (get_current_weather_section app lat lon w r body _
                 Hsrv Hok Hbody Hcw).
Qed.

(** The session up to the printed current weather. *)
Lemma session_reaches_current (app : WeatherApp) (city : string) (days : Z)
    (w : world) (top section : list (string * value)) (lat lon : float)
    (code : Z) :
  geocoder_answers w app city top lat lon ->
  weather_answers w (sent w ++ [geocode_request app city])%list
    app lat lon section code ->
  lookup_and_report app city days w
  = (if days >? 0
     then daily <- get_daily_forecast app lat lon days ;;
          print_forecast app daily
     else ret tt)
      (shown (requested w [geocode_request app city;
                           current_request app lat lon])
         (map Printed (session_current_lines top section lat lon code))).
Proof.
  intros Hg Hc. unfold lookup_and_report, bind.
  rewrite (geocode_city_run app city w top lat lon Hg).
  rewrite (get_current_weather_run app lat lon
             (requested w [geocode_request app city]) section code Hc).
  assert (Hcode : py_int (match dict_lookup "weathercode" section with
                          | Some v => v
                          | None => PInt (-999)
                          end) = inr code)
    by (destruct Hc as (r & body & _ & _ & _ & _ & H); exact H).
  rewrite (print_current_renders app _ lat lon section code _ Hcode).
  rewrite requested_requested. reflexivity.
Qed.

(** X17. A whole session without forecast. With a city and [--forecast 0]
    on the command line, a geocoder that resolves the city and a weather
    endpoint that answers with a current-weather object, [main] sends
    exactly the geocoding and the current-weather request, prints exactly
    the six lines of the current-weather block (the label built from the
    geocoder's entry, the fields from the weather object), and returns. *)
Theorem session_without_forecast (args : Args) (c : string) (w : world)
    (top section : list (string * value)) (lat lon : float) (code : Z) :
  let app := mk_app (timeout_arg args) in
  city args = Some c -> c <> "" ->
  forecast args = Some 0 ->
  geocoder_answers w app (strip c) top lat lon ->
  weather_answers w (sent w ++ [geocode_request app (strip c)])%list
    app lat lon section code ->
  main args w
  = (Val tt,
     shown (requested w [geocode_request app (strip c);
                         current_request app lat lon])
       (map Printed (session_current_lines top section lat lon code))).
Proof.
  intros app Hc Hne Hf Hg Hw.
  assert (Hn : 0 <= 0 <= 16) by lia.
  rewrite (main_with_arguments args c 0 w Hc Hne Hf Hn). fold app.
  unfold try_except.
  now rewrite (session_reaches_current _ _ 0 w top section lat lon code Hg Hw).
Qed.

(** X18. A city the geocoder does not know. With a city and a valid
    [--forecast] on the command line, when the geocoder answers
    successfully with no results (none, null or an empty list), [main]
    sends the geocoding request and nothing else, prints the one line
    "Error: City '<city>' not found." with the stripped city, and
    returns. *)
Theorem session_city_not_found (args : Args) (c : string) (n : Z) (w : world)
    (r : response) (body : list (string * value)) :
  let app := mk_app (timeout_arg args) in
  city args = Some c -> c <> "" ->
  forecast args = Some n -> 0 <= n <= 16 ->
  server w (sent w) (geocode_request app (strip c)) = Responded r ->
  successful r ->
  json_body r = inr (PDict body) ->
  truthy (field "results" body) = false ->
  main args w
  = (Val tt,
     shown (requested w [geocode_request app (strip c)])
       [Printed ("Error: City '" ++ strip c ++ "' not found.")]).
Proof.
  intros app Hc Hne Hf Hn Hsrv Hok Hbody Hres.
  rewrite (main_with_arguments args c n w Hc Hne Hf Hn). fold app.
  unfold try_except, lookup_and_report, bind.
  rewrite (surjective_pairing (geocode_city _ (strip c) w)).
  rewrite geocode_city_world.
  rewrite (geocode_city_not_found _ (strip c) w r body Hsrv Hok Hbody Hres).
  rewrite select_main_clause. reflexivity.
Qed.

Lemma shown_requested_shown (w : world) (a b : list request)
    (l m : list console_event) :
  shown (requested (shown (requested w a) l) b) m
  = shown (requested w (a ++ b)) (l ++ m).
Proof. unfold shown, requested. simpl. now rewrite !app_assoc. Qed.

(** X19. A failure after the current weather keeps what was printed. With
    a day count in 1..16, once the current weather is printed, a 4xx or 5xx
    status on the forecast request makes [main] add the single line "HTTP
    error from API: ..." under the six lines of the current-weather block;
    all three requests have been sent and [main] returns normally. *)
Theorem session_forecast_fails_upstream (args : Args) (c : string) (n : Z)
    (w : world) (top section : list (string * value)) (lat lon : float)
    (code : Z) (r : response) :
  let app := mk_app (timeout_arg args) in
  city args = Some c -> c <> "" ->
  forecast args = Some n -> 1 <= n <= 16 ->
  geocoder_answers w app (strip c) top lat lon ->
  weather_answers w (sent w ++ [geocode_request app (strip c)])%list
    app lat lon section code ->
  server w (sent w ++ [geocode_request app (strip c);
                       current_request app lat lon])%list
    (forecast_request app lat lon n) = Responded r ->
  400 <= status_code r < 600 ->
  main args w
  = (Val tt,
     shown (requested w (session_requests app (strip c) lat lon n))
       (map Printed (session_current_lines top section lat lon code)
        ++ [Printed ("HTTP error from API: " ++ status_text r)])).
Proof.
  intros app Hc Hne Hf Hn Hg Hw Hsrv Hst.
  assert (Hn' : 0 <= n <= 16) by lia.
  rewrite (main_with_arguments args c n w Hc Hne Hf Hn'). fold app.
  unfold try_except.
  rewrite (session_reaches_current _ _ n w top section lat lon code Hg Hw).
  assert (Hpos : (n >? 0) = true) by (rewrite Z.gtb_ltb; apply Z.ltb_lt; lia).
  rewrite Hpos. unfold bind.
  set (w3 := shown (requested w _) _).
  rewrite (surjective_pairing (get_daily_forecast app lat lon n w3)).
  rewrite (get_daily_forecast_world app lat lon n w3 Hn).
  assert (Hsrv3 : server w3 (sent w3) (forecast_request app lat lon n)
                  = Responded r).
  { exact Hsrv. }
  rewrite (get_daily_forecast_http_error app lat lon n w3 r Hn Hst Hsrv3).
  rewrite select_main_clause, print_shown. subst w3.
  cbn [failure_text exn_cls exn_msg].
  now rewrite shown_requested_shown.
Qed.

(** X20. A whole session with forecast. With a city and a day count in
    1..16 on the command line, a geocoder that resolves the city, a current
    weather object and a forecast whose seven sequences have the declared
    types and one length, [main] sends the three requests, prints the six
    lines of the current weather, the forecast heading and one line per
    day, each showing its date and the description of its code, and
    returns. *)
Theorem session_with_forecast (args : Args) (c : string) (n : Z) (w : world)
    (top section : list (string * value)) (lat lon : float) (code : Z)
    (dates : list string) (codes : list Z)
    (tmax tmin psum wmax : list float) (wdir : list Z) :
  let app := mk_app (timeout_arg args) in
  city args = Some c -> c <> "" ->
  forecast args = Some n -> 1 <= n <= 16 ->
  geocoder_answers w app (strip c) top lat lon ->
  weather_answers w (sent w ++ [geocode_request app (strip c)])%list
    app lat lon section code ->
  forecast_answers w
    (sent w ++ [geocode_request app (strip c); current_request app lat lon])%list
    app lat lon n dates codes tmax tmin psum wmax wdir ->
  exists lines : list string,
    main args w
    = (Val tt,
       shown (requested w (session_requests app (strip c) lat lon n))
         (map Printed (session_current_lines top section lat lon code)
          ++ Printed forecast_heading :: map Printed lines))
    /\ List.length lines = List.length dates
    /\ forall (i : nat) (date : string) (day_code : Z) (line : string),
         nth_error dates i = Some date ->
         nth_error codes i = Some day_code ->
         nth_error lines i = Some line ->
         shows_day date (describe_code day_code) line.
Proof.
  intros app Hc Hne Hf Hn Hg Hw
    (r & body & d & Hsrv & Hok & Hbody & Hdaily
     & Ht & Hcd & Hhi & Hlo & Hp & Hwm & Hdir
     & Lc & Lhi & Llo & Lp & Lw & Ldir).
  assert (Hn' : 0 <= n <= 16) by lia.
  set (w3 := shown (requested w [geocode_request app (strip c);
                                 current_request app lat lon])
               (map Printed (session_current_lines top section lat lon code))).
  assert (Hsrv3 : server w3 (sent w3) (forecast_request app lat lon n)
                  = Responded r) by exact Hsrv.
  destruct (print_forecast_days app d dates codes tmax tmin psum wmax wdir
              (requested w3 [forecast_request app lat lon n])
              Ht Hcd Hhi Hlo Hp Hwm Hdir
              ltac:(lia) ltac:(lia) ltac:(lia) ltac:(lia) ltac:(lia) ltac:(lia))
    as [lines [Hrun HF]].
  exists lines. split; [|now apply rows_by_index].
  rewrite (main_with_arguments args c n w Hc Hne Hf Hn'). fold app.
  unfold try_except.
  rewrite (session_reaches_current _ _ n w top section lat lon code Hg Hw).
  assert (Hpos : (n >? 0) = true) by (rewrite Z.gtb_ltb; apply Z.ltb_lt; lia).
  rewrite Hpos. unfold bind. fold w3.
  rewrite (surjective_pairing (get_daily_forecast app lat lon n w3)).
  rewrite (get_daily_forecast_world app lat lon n w3 Hn).
  rewrite (get_daily_forecast_section app lat lon n w3 r body (PDict d)
             Hn Hsrv3 Hok Hbody Hdaily).
  rewrite Hrun. subst w3.
  now rewrite shown_requested_shown.
Qed.

End SessionRuns.

Section PromptFailures.
Context {RT : PyRuntime}.

(** A session whose first prompt raises [e]. *)
Lemma main_first_prompt_raises (args : Args) (w w' : world) (e : exn)
    (prompt : string) :
  (city args = None \/ city args = Some "") /\ prompt = "Enter a city name: "
  \/ (exists c : string, city args = Some c /\ c <> "")
     /\ forecast args = None /\ prompt = days_prompt ->
  input prompt w = (Exc e, w') ->
  main args w = (Val tt, shown w' [Printed (failure_text e)]).
Proof.
  intros Hargs Hin. apply main_reports.
  unfold main_steps, bind, acquire_city.
  destruct Hargs as [[Hc ->]|[[c [Hc Hne]] [Hf ->]]].
  - destruct Hc as [Hc|Hc]; rewrite Hc; simpl; unfold bind; now rewrite Hin.
  - rewrite Hc. destruct (String.eqb_spec c "") as [->|_]; [contradiction|].
    simpl. unfold acquire_forecast_days. rewrite Hf.
    unfold bind, ask_forecast_days_interactively.
    rewrite ask_loop_round. unfold bind. now rewrite Hin.
Qed.

(** X21. An interrupt at a prompt ends the session quietly. When the user
    presses Ctrl-C at the city prompt, or at the day-count prompt of a
    session whose city came from the command line, [main] prints a line
    break and "Cancelled.", sends nothing and returns normally. *)
Theorem main_interrupted_at_prompt (args : Args) (w : world)
    (rest : list keyboard_event) :
  keyboard w = CtrlC :: rest ->
  (city args = None \/ city args = Some "" ->
   main args w
   = (Val tt,
      shown (typed w rest)
        [Prompted "Enter a city name: "; Printed (nl ++ "Cancelled.")]))
  /\
  (forall c : string,
     city args = Some c -> c <> "" -> forecast args = None ->
     main args w
     = (Val tt,
        shown (typed w rest)
          [Prompted days_prompt; Printed (nl ++ "Cancelled.")])).
Proof.
  intros Hk.
  assert (Hin : forall prompt : string,
             input prompt w
             = (Exc (mk_exn KeyboardInterrupt ""),
                shown (typed w rest) [Prompted prompt])).
  { intros prompt. unfold input. now rewrite Hk. }
  split.
  - intros Hc.
    rewrite (main_first_prompt_raises args w _ _ "Enter a city name: "
               (or_introl (conj Hc eq_refl)) (Hin _)).
    now rewrite shown_shown.
  - intros c Hc Hne Hf.
    rewrite (main_first_prompt_raises args w _ _ days_prompt
               (or_intror (conj (ex_intro _ c (conj Hc Hne)) (conj Hf eq_refl)))
               (Hin _)).
    now rewrite shown_shown.
Qed.

(** X22. The end of the input at a prompt is not an answer. When there is
    nothing to read at the city prompt, or at the day-count prompt of a
    session whose city came from the command line, no default is taken:
    the EOFError of [input] reaches [main], which prints "Unexpected error:
    EOF when reading a line", sends nothing and returns normally. *)
Theorem main_input_ended_at_prompt (args : Args) (w : world) :
  keyboard w = [] ->
  (city args = None \/ city args = Some "" ->
   main args w
   = (Val tt,
      shown w
        [Prompted "Enter a city name: ";
         Printed "Unexpected error: EOF when reading a line"]))
  /\
  (forall c : string,
     city args = Some c -> c <> "" -> forecast args = None ->
     main args w
     = (Val tt,
        shown w
          [Prompted days_prompt;
           Printed "Unexpected error: EOF when reading a line"])).
Proof.
  intros Hk.
  assert (Hin : forall prompt : string,
             input prompt w
             = (Exc (mk_exn EOFError "EOF when reading a line"),
                shown w [Prompted prompt])).
  { intros prompt. unfold input. rewrite Hk. unfold shown.
    now rewrite Hk. }
  split.
  - intros Hc.
    rewrite (main_first_prompt_raises args w _ _ "Enter a city name: "
               (or_introl (conj Hc eq_refl)) (Hin _)).
    now rewrite shown_shown.
  - intros c Hc Hne Hf.
    rewrite (main_first_prompt_raises args w _ _ days_prompt
               (or_intror (conj (ex_intro _ c (conj Hc Hne)) (conj Hf eq_refl)))
               (Hin _)).
    now rewrite shown_shown.
Qed.

End PromptFailures.

(** ** The forecast step and the day count *)

Section ForecastGate.
Context {RT : PyRuntime}.

(** [main] once the city and the day count are acquired: the rest of the
    [try] block under the clauses of [main]. *)
Lemma main_acquired (args : Args) (w w1 w2 : world) (city_input : string)
    (days : Z) :
  acquire_city args w = (Val (Some city_input), w1) ->
  acquire_forecast_days args w1 = (Val (Some days), w2) ->
  main args w
  = try_except (lookup_and_report (mk_app (timeout_arg args)) city_input days)
      main_clauses w2.
Proof.
  intros Hc Hd. unfold main, try_except.
  now rewrite (main_steps_acquired _ _ _ _ _ _ _ Hc Hd).
Qed.

Lemma acquired_sent (args : Args) (w w1 w2 : world)
    (city_opt : option string) (days_opt : option Z) :
  acquire_city args w = (Val city_opt, w1) ->
  acquire_forecast_days args w1 = (Val days_opt, w2) ->
  sent w2 = sent w.
Proof.
  intros Hc Hd.
  assert (H1 := offline_acquire_city args w). rewrite Hc in H1.
  assert (H2 := offline_acquire_forecast_days args w1). rewrite Hd in H2.
  simpl in H1, H2. congruence.
Qed.

(** The forecast step on a well-formed answer. *)
Lemma forecast_step_renders (app : WeatherApp) (lat lon : float) (days : Z)
    (w : world) (dates : list string) (codes : list Z)
    (tmax tmin psum wmax : list float) (wdir : list Z) :
  1 <= days <= 16 ->
  forecast_answers w (sent w) app lat lon days
    dates codes tmax tmin psum wmax wdir ->
  exists lines : list string,
    (daily <- get_daily_forecast app lat lon days ;;
     print_forecast app daily) w
    = (Val tt,
       shown (requested w [forecast_request app lat lon days])
         (Printed forecast_heading :: map Printed lines))
    /\ List.length lines = List.length dates
    /\ forall (i : nat) (date : string) (code : Z) (line : string),
         nth_error dates i = Some date ->
         nth_error codes i = Some code ->
         nth_error lines i = Some line ->
         shows_day date (describe_code code) line.
Proof.
  intros Hd (r & body & d & Hsrv & Hok & Hbody & Hdaily
             & Ht & Hcd & Hhi & Hlo & Hp & Hwm & Hdir
             & Lc & Lhi & Llo & Lp & Lw & Ldir).
  destruct (print_forecast_days app d dates codes tmax tmin psum wmax wdir
              (requested w [forecast_request app lat lon days])
              Ht Hcd Hhi Hlo Hp Hwm Hdir
              ltac:(lia) ltac:(lia) ltac:(lia) ltac:(lia) ltac:(lia) ltac:(lia))
    as [lines [Hrun HF]].
  exists lines. split; [|now apply rows_by_index].
  unfold bind.
  rewrite (surjective_pairing (get_daily_forecast app lat lon days w)).
  rewrite (get_daily_forecast_world app lat lon days w Hd).
  rewrite (get_daily_forecast_section app lat lon days w r body (PDict d)
             Hd Hsrv Hok Hbody Hdaily).
  exact Hrun.
Qed.

(** C7. Take a session of [main] that has acquired its city and a day
    count. With the count 0, [main] runs exactly: resolve the city, fetch
    the current weather, print it, under its [except] clauses;
    [get_daily_forecast] is not part of it. The requests it sends are the
    geocoding request, followed by the current-weather request when the
    city was resolved, and none of them asks for a forecast; when the
    geocoder and the weather endpoint answer, [main] ends having sent these
    two requests and printed the six lines of the current weather. With a
    count above 0, once the geocoder and the weather endpoint have answered
    and the current weather is printed, [main] goes on with
    [get_daily_forecast] and [print_forecast]: the forecast request is
    sent after the other two, and when the endpoint answers with a
    forecast, the heading and one line per day are printed under the
    current weather. *)
Theorem forecast_only_when_asked (args : Args) (w w1 w2 : world)
    (city_input : string) (days : Z) :
  let app := mk_app (timeout_arg args) in
  acquire_city args w = (Val (Some city_input), w1) ->
  acquire_forecast_days args w1 = (Val (Some days), w2) ->
  (days = 0 ->
   main args w = try_except (current_only app city_input) main_clauses w2
   /\ (exists new : list request,
         sent (snd (main args w)) = (sent w ++ new)%list
         /\ (new = [geocode_request app city_input]
             \/ exists lat lon : float,
                  new = [geocode_request app city_input;
                         current_request app lat lon])
         /\ Forall (fun rq => is_forecast_request rq = false) new)
   /\ (forall (top section : list (string * value)) (lat lon : float)
              (code : Z),
         geocoder_answers w2 app city_input top lat lon ->
         weather_answers w2 (sent w2 ++ [geocode_request app city_input])%list
           app lat lon section code ->
         main args w
         = (Val tt,
            shown (requested w2 [geocode_request app city_input;
                                 current_request app lat lon])
              (map Printed (session_current_lines top section lat lon code)))))
  /\
  (0 < days ->
   forall (top section : list (string * value)) (lat lon : float) (code : Z),
     geocoder_answers w2 app city_input top lat lon ->
     weather_answers w2 (sent w2 ++ [geocode_request app city_input])%list
       app lat lon section code ->
     let printed :=
       shown (requested w2 [geocode_request app city_input;
                            current_request app lat lon])
         (map Printed (session_current_lines top section lat lon code)) in
     main args w
     = try_except
         (daily <- get_daily_forecast app lat lon days ;;
          print_forecast app daily)
         main_clauses printed
     /\ sent (snd (main args w))
        = (sent w ++ session_requests app city_input lat lon days)%list
     /\ (forall (dates : list string) (codes : list Z)
                (tmax tmin psum wmax : list float) (wdir : list Z),
           forecast_answers w2
             (sent w2 ++ [geocode_request app city_input;
                          current_request app lat lon])%list
             app lat lon days dates codes tmax tmin psum wmax wdir ->
           exists lines : list string,
             main args w
             = (Val tt,
                shown (requested w2
                         (session_requests app city_input lat lon days))
                  (map Printed
                     (session_current_lines top section lat lon code)
                   ++ Printed forecast_heading :: map Printed lines))
             /\ List.length lines = List.length dates
             /\ forall (i : nat) (date : string) (day_code : Z)
                       (line : string),
                  nth_error dates i = Some date ->
                  nth_error codes i = Some day_code ->
                  nth_error lines i = Some line ->
                  shows_day date (describe_code day_code) line)).
Proof.
  intros app Hc Hd.
  assert (Hmain := main_acquired args w w1 w2 city_input days Hc Hd).
  fold app in Hmain.
  assert (Hsent := acquired_sent args w w1 w2 _ _ Hc Hd).
  split.
  - intros ->. split; [|split].
    + rewrite Hmain. unfold try_except.
      now rewrite lookup_and_report_zero.
    + rewrite Hmain, (offline_try_except _ _ offline_main_clauses).
      rewrite lookup_and_report_zero, <- Hsent.
      destruct (current_only_sent app city_input w2) as [H|[lat [lon H]]].
      * exists [geocode_request app city_input].
        split; [exact H|]. split; [now left|]. repeat constructor.
      * exists [geocode_request app city_input; current_request app lat lon].
        split; [exact H|]. split; [right; now exists lat, lon|].
        repeat constructor.
    + intros top section lat lon code Hg Hw.
      rewrite Hmain. unfold try_except.
      now rewrite (session_reaches_current _ _ 0 w2 top section lat lon code
                     Hg Hw).
  - intros Hpos top section lat lon code Hg Hw printed.
    assert (Hrange : 1 <= days <= 16).
    { assert (H := acquire_forecast_days_in_range args w1 w2 days Hd). lia. }
    assert (Hgt : (days >? 0) = true)
      by (rewrite Z.gtb_ltb; now apply Z.ltb_lt).
    assert (Hrun : lookup_and_report app city_input days w2
                   = (daily <- get_daily_forecast app lat lon days ;;
                      print_forecast app daily) printed).
    { rewrite (session_reaches_current _ _ days w2 top section lat lon code
                 Hg Hw).
      now rewrite Hgt. }
    split; [|split].
    + rewrite Hmain. unfold try_except. now rewrite Hrun.
    + rewrite Hmain, (offline_try_except _ _ offline_main_clauses), Hrun.
      rewrite (forecast_step_sent app lat lon days printed Hrange).
      subst printed. unfold session_requests. simpl.
      rewrite Hsent. now rewrite <- app_assoc.
    + intros dates codes tmax tmin psum wmax wdir Hf.
      destruct (forecast_step_renders app lat lon days printed
                  dates codes tmax tmin psum wmax wdir Hrange Hf)
        as [lines [Hstep Hlines]].
      exists lines. split; [|exact Hlines].
      rewrite Hmain. unfold try_except. rewrite Hrun, Hstep.
      subst printed. unfold session_requests.
      now rewrite shown_requested_shown.
Qed.

End ForecastGate.

(** * Concrete runs

    The statements above, applied to the example sessions. *)

Import IntegralFloats.

Lemma successful_200 (text : string) (body : string + value) :
  successful (mk_response 200 text body).
Proof. unfold successful. simpl. lia. Defined.

(** C1 as first stated fails on an entry whose [admin1] is present and
    empty: the name is returned alone, not followed by ", " and the empty
    region. *)
Lemma geocode_city_empty_admin1_counterexample :
  dict_lookup "admin1" Examples.bare_entry = Some (PStr "")
  /\ fst (geocode_city Examples.app "Prague"
            (Examples.quiet (Examples.upstream Examples.bare_entry)))
     = Val (50, 14, "Prague", PNone)
  /\ fst (geocode_city Examples.app "Prague"
            (Examples.quiet (Examples.upstream Examples.bare_entry)))
     <> Val (50, 14, "Prague" ++ ", " ++ "", PNone).
Proof.
  split; [reflexivity|]. split; [reflexivity|].
  vm_compute. intros H. inversion H.
Qed.

Lemma geocode_city_first_match_witness :
  fst (geocode_city Examples.app "Prague"
         (Examples.quiet (Examples.upstream Examples.prague_entry)))
  = Val (50, 14, "Prague, Prague", PStr "CZ")
  /\ fst (geocode_city Examples.app "Nowhere"
            (Examples.quiet
               (Examples.always (Examples.ok (PDict [("results", PList [])])))))
     = Exc (mk_exn ValueError "City 'Nowhere' not found.").
Proof.
  split.
  - destruct (geocode_city_first_match Examples.app "Prague"
                (Examples.quiet (Examples.upstream Examples.prague_entry))
                _ _ eq_refl (successful_200 _ _) eq_refl) as [_ Hfound].
    destruct (Hfound Examples.prague_entry [] (PFloat 50) (PFloat 14) 50 14
                "Prague" eq_refl eq_refl eq_refl eq_refl eq_refl eq_refl)
      as [Hrun _].
    exact Hrun.
  - destruct (geocode_city_first_match Examples.app "Nowhere"
                (Examples.quiet
                   (Examples.always
                      (Examples.ok (PDict [("results", PList [])]))))
                _ _ eq_refl (successful_200 _ _) eq_refl) as [Hnone _].
    exact (Hnone eq_refl).
Defined.

Lemma get_daily_forecast_day_bounds_witness :
  get_daily_forecast Examples.app 50 14 17
    (Examples.quiet (Examples.upstream Examples.prague_entry))
  = (Exc (mk_exn ValueError "Forecast days must be between 1 and 16."),
     Examples.quiet (Examples.upstream Examples.prague_entry))
  /\ fst (get_daily_forecast Examples.app 50 14 16
            (Examples.quiet (Examples.upstream Examples.prague_entry)))
     = Val (PDict Examples.daily_section).
Proof.
  split.
  - apply (proj1 (get_daily_forecast_day_bounds Examples.app 50 14 17 _)).
    right. lia.
  - assert (Hin : 1 <= 16 <= 16) by lia.
    destruct (proj2 (get_daily_forecast_day_bounds Examples.app 50 14 16
                       (Examples.quiet (Examples.upstream Examples.prague_entry)))
                Hin) as [_ Hval].
    exact (Hval _ _ _ eq_refl (successful_200 _ _) eq_refl eq_refl).
Defined.



Lemma print_forecast_one_line_per_day_witness :
  exists lines : list string,
    print_forecast Examples.app (PDict Examples.daily_section)
      (Examples.quiet (Examples.upstream Examples.prague_entry))
    = (Val tt,
       shown (Examples.quiet (Examples.upstream Examples.prague_entry))
         (Printed forecast_heading :: map Printed lines))
    /\ List.length lines = 2%nat.
Proof.
  destruct (proj1 (print_forecast_one_line_per_day Examples.app)
              Examples.daily_section 2%nat
              ["2025-01-01"; "2025-01-02"] [3; 1] [10; 11] [2; 3] [0; 1]
              [20; 15] [180; 200]
              (Examples.quiet (Examples.upstream Examples.prague_entry))
              eq_refl eq_refl eq_refl eq_refl eq_refl eq_refl eq_refl
              eq_refl eq_refl eq_refl eq_refl eq_refl eq_refl eq_refl)
    as [lines [Hrun [Hlen _]]].
  exists lines. split; assumption.
Defined.

Lemma print_current_missing_fields_witness :
  In (Printed "Condition  : Code -999")
    (console
       (snd (print_current Examples.app "Prague (CZ)" 50 14
               (PDict [("windspeed", PFloat 5)])
               (Examples.quiet (Examples.upstream Examples.prague_entry)))))
  /\ In (Printed "Temperature: None °C")
       (console
          (snd (print_current Examples.app "Prague (CZ)" 50 14
                  (PDict [("windspeed", PFloat 5)])
                  (Examples.quiet (Examples.upstream Examples.prague_entry))))).
Proof.
  destruct (print_current_missing_fields Examples.app "Prague (CZ)" 50 14
              [("windspeed", PFloat 5)]
              (Examples.quiet (Examples.upstream Examples.prague_entry)))
    as [Hcode Hfields].
  split.
  - exact (proj2 (Hcode eq_refl)).
  - exact (proj2 (proj1 (Hfields (-999) eq_refl) eq_refl)).
Defined.

Lemma forecast_days_acquisition_witness :
  ask_forecast_days_interactively
    (mk_world [Line ""; Line "abc"; Line "17"; Line "5"] []
       (Examples.upstream Examples.prague_entry) [])
  = (Val 0,
     mk_world [Line "abc"; Line "17"; Line "5"] [Prompted days_prompt]
       (Examples.upstream Examples.prague_entry) [])
  /\ main (Examples.cli (Some "Brno") (Some 17))
       (Examples.quiet (Examples.upstream Examples.prague_entry))
     = (Val tt,
        mk_world [] [Printed "Error: --forecast must be between 0 and 16."]
          (Examples.upstream Examples.prague_entry) []).
Proof.
  destruct forecast_days_acquisition as [_ [Hround Hcli]].
  split.
  - exact (proj2 (proj2 (proj2
             (Hround (mk_world [Line ""; Line "abc"; Line "17"; Line "5"] []
                        (Examples.upstream Examples.prague_entry) [])
                     "" [Line "abc"; Line "17"; Line "5"] eq_refl)))
             eq_refl).
  - assert (Hout : 17 < 0 \/ 16 < 17) by (right; lia).
    exact (proj2 (Hcli (Examples.cli (Some "Brno") (Some 17)) 17
                    (Examples.quiet (Examples.upstream Examples.prague_entry))
                    eq_refl Hout)
             _ "Brno" eq_refl).
Defined.

Lemma main_reports_every_failure_witness :
  main (Examples.cli (Some "Brno") (Some 3)) Examples.failing
  = (Val tt,
     shown (requested Examples.failing [geocode_request Examples.app "Brno"])
       [Printed "HTTP error from API: 500 Server Error"]).
Proof.
  exact (proj1 (proj2 (proj2 (main_reports_every_failure
                                (Examples.cli (Some "Brno") (Some 3)))))
           Examples.failing
           (requested Examples.failing [geocode_request Examples.app "Brno"])
           (mk_exn HTTPError "500 Server Error") eq_refl).
Defined.


(** ** Concrete runs of the further properties *)

Lemma get_daily_forecast_missing_section_witness :
  get_daily_forecast Examples.app 50 14 3
    (Scenarios.answering (Examples.ok (PDict [("foo", PStr "bar")])))
  = (Exc (mk_exn ValueError "Daily forecast missing from API response."),
     requested
       (Scenarios.answering (Examples.ok (PDict [("foo", PStr "bar")])))
       [forecast_request Examples.app 50 14 3]).
Proof.
  assert (Hd : 1 <= 3 <= 16) by lia.
  exact (get_daily_forecast_missing_section Examples.app 50 14 3
           (Scenarios.answering (Examples.ok (PDict [("foo", PStr "bar")])))
           _ _ Hd eq_refl (successful_200 _ _) eq_refl eq_refl).
Defined.

Lemma clients_propagate_request_failures_witness :
  geocode_city Examples.app "Brno"
    (Scenarios.answering (Failed Scenarios.unreachable))
  = (Exc Scenarios.unreachable,
     requested (Scenarios.answering (Failed Scenarios.unreachable))
       [geocode_request Examples.app "Brno"]).
Proof.
  exact (proj1 (clients_propagate_request_failures Examples.app
                  (Scenarios.answering (Failed Scenarios.unreachable))
                  Scenarios.unreachable)
           "Brno" eq_refl).
Defined.


Lemma geocode_city_entry_without_coordinates_witness :
  fst (geocode_city Examples.app "Prague"
         (Examples.quiet (Examples.upstream Scenarios.entry_without_latitude)))
  = Exc (mk_exn KeyError "'latitude'").
Proof.
  destruct (geocode_city_entry_without_coordinates Examples.app "Prague"
              (Examples.quiet
                 (Examples.upstream Scenarios.entry_without_latitude))
              _ _ Scenarios.entry_without_latitude []
              eq_refl (successful_200 _ _) eq_refl eq_refl)
    as [Hlat _].
  exact (Hlat eq_refl).
Defined.

Lemma clients_on_non_object_body_witness :
  exists e : exn,
    fst (get_current_weather Examples.app 50 14
           (Scenarios.answering (Examples.ok PNone))) = Exc e
    /\ exn_cls e = TypeError.
Proof.
  destruct (clients_on_non_object_body Examples.app
              (Scenarios.answering (Examples.ok PNone))
              (mk_response 200 "" (inr PNone)) PNone
              (successful_200 _ _) eq_refl)
    as [_ [Hcurrent _]].
  exact (Hcurrent 50 14 eq_refl eq_refl).
Defined.

Lemma print_forecast_follows_time_witness :
  exists lines : list string,
    print_forecast Examples.app (PDict Scenarios.daily_long)
      (Scenarios.at_keyboard [])
    = (Val tt,
       shown (Scenarios.at_keyboard [])
         (Printed forecast_heading :: map Printed lines))
    /\ List.length lines = 1%nat.
Proof.
  destruct (print_forecast_follows_time Examples.app Scenarios.daily_long
              ["2025-01-01"] [3; 1] [10; 11] [2; 3] [0; 1] [20; 15] [180; 200]
              (Scenarios.at_keyboard [])
              eq_refl eq_refl eq_refl eq_refl eq_refl eq_refl eq_refl
              ltac:(simpl; lia) ltac:(simpl; lia) ltac:(simpl; lia)
              ltac:(simpl; lia) ltac:(simpl; lia) ltac:(simpl; lia))
    as [lines [Hrun [Hlen _]]].
  exists lines. split; assumption.
Defined.

Lemma print_forecast_short_codes_witness :
  exists lines : list string,
    print_forecast Examples.app (PDict Scenarios.daily_short_codes)
      (Scenarios.at_keyboard [])
    = (Exc (mk_exn IndexError "list index out of range"),
       shown (Scenarios.at_keyboard [])
         (Printed forecast_heading :: map Printed lines))
    /\ List.length lines = 1%nat.
Proof.
  destruct (print_forecast_short_codes Examples.app Scenarios.daily_short_codes
              ["2025-01-01"; "2025-01-02"] [3] [10; 11] [2; 3] [0; 1]
              [20; 15] [180; 200]
              (Scenarios.at_keyboard [])
              eq_refl eq_refl eq_refl eq_refl eq_refl eq_refl eq_refl
              ltac:(simpl; lia) ltac:(simpl; lia) ltac:(simpl; lia)
              ltac:(simpl; lia) ltac:(simpl; lia) ltac:(simpl; lia))
    as [lines [Hrun Hlen]].
  exists lines. split; assumption.
Defined.

Lemma describe_code_injective_witness : 1 + 2 = 3.
Proof. exact (describe_code_injective (1 + 2) 3 eq_refl). Defined.

Lemma ask_returns_first_accepted_witness :
  ask_forecast_days_interactively
    (Scenarios.at_keyboard [Line "abc"; Line "17"; Line " 5 "; Line "x"])
  = (Val 5,
     shown
       (typed
          (Scenarios.at_keyboard [Line "abc"; Line "17"; Line " 5 "; Line "x"])
          [Line "x"])
       (retries 2 ++ [Prompted days_prompt])).
Proof.
  assert (Hbad : Forall rejected ["abc"; "17"]).
  { constructor; [exact I|]. constructor; [|constructor].
    right. reflexivity. }
  assert (Hgood : accepted " 5 " 5).
  { split; [reflexivity|lia]. }
  exact (ask_returns_first_accepted ["abc"; "17"] " 5 " 5 [Line "x"]
           Hbad Hgood
           (Scenarios.at_keyboard [Line "abc"; Line "17"; Line " 5 "; Line "x"])
           eq_refl).
Defined.

Lemma ask_raises_only_at_end_or_interrupt_witness :
  (mk_exn EOFError "EOF when reading a line"
   = mk_exn EOFError "EOF when reading a line"
   /\ keyboard
        (snd (ask_forecast_days_interactively
                (Scenarios.at_keyboard [Line "abc"]))) = [])
  \/ mk_exn EOFError "EOF when reading a line" = mk_exn KeyboardInterrupt "".
Proof.
  exact (ask_raises_only_at_end_or_interrupt
           (Scenarios.at_keyboard [Line "abc"])
           (snd (ask_forecast_days_interactively
                   (Scenarios.at_keyboard [Line "abc"])))
           (mk_exn EOFError "EOF when reading a line") eq_refl).
Defined.

Lemma ask_accepts_decimal_day_counts_witness :
  ask_forecast_days_interactively (Scenarios.at_keyboard [Line "16"])
  = (Val 16,
     shown (typed (Scenarios.at_keyboard [Line "16"]) [])
       [Prompted days_prompt]).
Proof.
  assert (Hd : 0 <= 16 <= 16) by lia.
  exact (ask_accepts_decimal_day_counts 16
           (Scenarios.at_keyboard [Line "16"]) [] Hd eq_refl).
Defined.

Lemma main_with_arguments_is_unattended_witness :
  keyboard (snd (main (Examples.cli (Some "Prague") (Some 2))
                   (Scenarios.at_keyboard [Line "x"])))
  = [Line "x"].
Proof.
  assert (Hn : 0 <= 2 <= 16) by lia.
  assert (Hne : "Prague" <> "") by discriminate.
  exact (proj1 (main_with_arguments_is_unattended
                  (Examples.cli (Some "Prague") (Some 2)) "Prague" 2
                  (Scenarios.at_keyboard [Line "x"])
                  eq_refl Hne eq_refl Hn)).
Defined.

Lemma main_without_city_witness :
  main (Examples.cli None (Some 3)) (Scenarios.at_keyboard [Line "   "])
  = (Val tt,
     shown (typed (Scenarios.at_keyboard [Line "   "]) [])
       [Prompted "Enter a city name: "; Printed "No city entered. Exiting."]).
Proof.
  exact (proj1 (main_without_city (Examples.cli None (Some 3))
                  (Scenarios.at_keyboard [Line "   "]) "   " []
                  (or_introl eq_refl) eq_refl)
           eq_refl).
Defined.

Lemma main_with_blank_city_argument_witness :
  acquire_city (Examples.cli (Some "   ") (Some 0)) (Scenarios.at_keyboard [])
  = (Val (Some ""), Scenarios.at_keyboard []).
Proof.
  assert (Hne : "   " <> "") by discriminate.
  exact (proj1 (main_with_blank_city_argument
                  (Examples.cli (Some "   ") (Some 0)) "   "
                  (Scenarios.at_keyboard []) eq_refl Hne eq_refl)).
Defined.

Lemma prague_resolves :
  geocoder_answers (Examples.quiet (Examples.upstream Examples.prague_entry))
    Examples.app "Prague" Examples.prague_entry 50 14.
Proof.
  exists (mk_response 200 ""
            (inr (PDict [("results", PList [PDict Examples.prague_entry])]))),
    [("results", PList [PDict Examples.prague_entry])], [],
    (PFloat 50), (PFloat 14).
  split; [reflexivity|]. split; [apply successful_200|].
  repeat split; reflexivity.
Defined.

Lemma prague_weather (srv : list request -> request -> http_outcome)
    (log : list request) :
  srv log (current_request Examples.app 50 14)
  = Examples.ok (PDict [("current_weather", PDict Examples.current_section)]) ->
  weather_answers (Examples.quiet srv) log Examples.app 50 14
    Examples.current_section 3.
Proof.
  intros Hsrv.
  exists (mk_response 200 ""
            (inr (PDict [("current_weather",
                          PDict Examples.current_section)]))),
    [("current_weather", PDict Examples.current_section)].
  split; [exact Hsrv|]. split; [apply successful_200|].
  repeat split; reflexivity.
Defined.

Lemma session_without_forecast_witness :
  main (Examples.cli (Some " Prague ") (Some 0))
    (Examples.quiet (Examples.upstream Examples.prague_entry))
  = (Val tt,
     shown
       (requested (Examples.quiet (Examples.upstream Examples.prague_entry))
          [geocode_request Examples.app "Prague";
           current_request Examples.app 50 14])
       (map Printed
          (session_current_lines Examples.prague_entry
             Examples.current_section 50 14 3))).
Proof.
  assert (Hne : " Prague " <> "") by discriminate.
  exact (session_without_forecast
           (Examples.cli (Some " Prague ") (Some 0)) " Prague "
           (Examples.quiet (Examples.upstream Examples.prague_entry))
           Examples.prague_entry Examples.current_section 50 14 3
           eq_refl Hne eq_refl prague_resolves
           (prague_weather _ _ eq_refl)).
Defined.

Lemma session_city_not_found_witness :
  main (Examples.cli (Some "Atlantis") (Some 1))
    (Scenarios.answering (Examples.ok (PDict [("results", PList [])])))
  = (Val tt,
     shown
       (requested
          (Scenarios.answering (Examples.ok (PDict [("results", PList [])])))
          [geocode_request Examples.app "Atlantis"])
       [Printed "Error: City 'Atlantis' not found."]).
Proof.
  assert (Hne : "Atlantis" <> "") by discriminate.
  assert (Hn : 0 <= 1 <= 16) by lia.
  exact (session_city_not_found
           (Examples.cli (Some "Atlantis") (Some 1)) "Atlantis" 1
           (Scenarios.answering (Examples.ok (PDict [("results", PList [])])))
           (mk_response 200 "" (inr (PDict [("results", PList [])])))
           [("results", PList [])]
           eq_refl Hne eq_refl Hn eq_refl (successful_200 _ _)
           eq_refl eq_refl).
Defined.

Lemma session_forecast_fails_upstream_witness :
  main (Examples.cli (Some "Prague") (Some 2))
    (Examples.quiet Scenarios.forecast_down)
  = (Val tt,
     shown
       (requested (Examples.quiet Scenarios.forecast_down)
          (session_requests Examples.app "Prague" 50 14 2))
       (map Printed
          (session_current_lines Examples.prague_entry
             Examples.current_section 50 14 3)
        ++ [Printed "HTTP error from API: 503 Server Error"])).
Proof.
  assert (Hne : "Prague" <> "") by discriminate.
  assert (Hn : 1 <= 2 <= 16) by lia.
  assert (Hst : 400 <= 503 < 600) by lia.
  assert (Hg : geocoder_answers (Examples.quiet Scenarios.forecast_down)
                 Examples.app "Prague" Examples.prague_entry 50 14).
  { exists (mk_response 200 ""
              (inr (PDict [("results", PList [PDict Examples.prague_entry])]))),
      [("results", PList [PDict Examples.prague_entry])], [],
      (PFloat 50), (PFloat 14).
    split; [reflexivity|]. split; [apply successful_200|].
    repeat split; reflexivity. }
  exact (session_forecast_fails_upstream
           (Examples.cli (Some "Prague") (Some 2)) "Prague" 2
           (Examples.quiet Scenarios.forecast_down)
           Examples.prague_entry Examples.current_section 50 14 3
           (mk_response 503 "503 Server Error" (inl ""))
           eq_refl Hne eq_refl Hn Hg (prague_weather _ _ eq_refl)
           eq_refl Hst).
Defined.

Lemma session_with_forecast_witness :
  exists lines : list string,
    main (Examples.cli (Some "Prague") (Some 2))
      (Examples.quiet (Examples.upstream Examples.prague_entry))
    = (Val tt,
       shown
         (requested (Examples.quiet (Examples.upstream Examples.prague_entry))
            (session_requests Examples.app "Prague" 50 14 2))
         (map Printed
            (session_current_lines Examples.prague_entry
               Examples.current_section 50 14 3)
          ++ Printed forecast_heading :: map Printed lines))
    /\ List.length lines = 2%nat.
Proof.
  assert (Hne : "Prague" <> "") by discriminate.
  assert (Hn : 1 <= 2 <= 16) by lia.
  assert (Hf : forecast_answers
                 (Examples.quiet (Examples.upstream Examples.prague_entry))
                 [geocode_request Examples.app "Prague";
                  current_request Examples.app 50 14]
                 Examples.app 50 14 2
                 ["2025-01-01"; "2025-01-02"] [3; 1] [10; 11] [2; 3] [0; 1]
                 [20; 15] [180; 200]).
  { exists (mk_response 200 ""
              (inr (PDict [("daily", PDict Examples.daily_section)]))),
      [("daily", PDict Examples.daily_section)], Examples.daily_section.
    split; [reflexivity|]. split; [apply successful_200|].
    repeat split; reflexivity. }
  destruct (session_with_forecast
              (Examples.cli (Some "Prague") (Some 2)) "Prague" 2
              (Examples.quiet (Examples.upstream Examples.prague_entry))
              Examples.prague_entry Examples.current_section 50 14 3
              ["2025-01-01"; "2025-01-02"] [3; 1] [10; 11] [2; 3] [0; 1]
              [20; 15] [180; 200]
              eq_refl Hne eq_refl Hn prague_resolves
              (prague_weather _ _ eq_refl) Hf)
    as [lines [Hrun [Hlen _]]].
  exists lines. split; assumption.
Defined.

Lemma main_interrupted_at_prompt_witness :
  main (Examples.cli (Some "Prague") None)
    (Scenarios.at_keyboard [CtrlC; Line "3"])
  = (Val tt,
     shown (typed (Scenarios.at_keyboard [CtrlC; Line "3"]) [Line "3"])
       [Prompted days_prompt; Printed (nl ++ "Cancelled.")]).
Proof.
  assert (Hne : "Prague" <> "") by discriminate.
  exact (proj2 (main_interrupted_at_prompt (Examples.cli (Some "Prague") None)
                  (Scenarios.at_keyboard [CtrlC; Line "3"]) [Line "3"] eq_refl)
           "Prague" eq_refl Hne eq_refl).
Defined.

Lemma main_input_ended_at_prompt_witness :
  main (Examples.cli None (Some 3)) (Scenarios.at_keyboard [])
  = (Val tt,
     shown (Scenarios.at_keyboard [])
       [Prompted "Enter a city name: ";
        Printed "Unexpected error: EOF when reading a line"]).
Proof.
  exact (proj1 (main_input_ended_at_prompt (Examples.cli None (Some 3))
                  (Scenarios.at_keyboard []) eq_refl)
           (or_introl eq_refl)).
Defined.

Lemma forecast_only_when_asked_witness :
  main (Examples.cli (Some "Prague") (Some 0))
    (Examples.quiet (Examples.upstream Examples.prague_entry))
  = (Val tt,
     shown
       (requested (Examples.quiet (Examples.upstream Examples.prague_entry))
          [geocode_request Examples.app "Prague";
           current_request Examples.app 50 14])
       (map Printed
          (session_current_lines Examples.prague_entry
             Examples.current_section 50 14 3)))
  /\ exists lines : list string,
       main (Examples.cli (Some "Prague") None)
         (Scenarios.at_keyboard [Line "2"])
       = (Val tt,
          shown
            (requested
               (shown (typed (Scenarios.at_keyboard [Line "2"]) [])
                  [Prompted days_prompt])
               (session_requests Examples.app "Prague" 50 14 2))
            (map Printed
               (session_current_lines Examples.prague_entry
                  Examples.current_section 50 14 3)
             ++ Printed forecast_heading :: map Printed lines))
       /\ List.length lines = 2%nat.
Proof.
  split.
  - destruct (forecast_only_when_asked
                (Examples.cli (Some "Prague") (Some 0))
                (Examples.quiet (Examples.upstream Examples.prague_entry))
                _ _ "Prague" 0 eq_refl eq_refl) as [Hzero _].
    destruct (Hzero eq_refl) as [_ [_ Hcurrent]].
    exact (Hcurrent Examples.prague_entry Examples.current_section 50 14 3
             prague_resolves (prague_weather _ _ eq_refl)).
  - assert (Hpos : 0 < 2) by lia.
    destruct (forecast_only_when_asked
                (Examples.cli (Some "Prague") None)
                (Scenarios.at_keyboard [Line "2"])
                _ _ "Prague" 2 eq_refl eq_refl) as [_ Hasked].
    assert (Hg : geocoder_answers
                   (shown (typed (Scenarios.at_keyboard [Line "2"]) [])
                      [Prompted days_prompt])
                   Examples.app "Prague" Examples.prague_entry 50 14).
    { exists (mk_response 200 ""
                (inr (PDict [("results", PList [PDict Examples.prague_entry])]))),
        [("results", PList [PDict Examples.prague_entry])], [],
        (PFloat 50), (PFloat 14).
      split; [reflexivity|]. split; [apply successful_200|].
      repeat split; reflexivity. }
    assert (Hw : weather_answers
                   (shown (typed (Scenarios.at_keyboard [Line "2"]) [])
                      [Prompted days_prompt])
                   [geocode_request Examples.app "Prague"]
                   Examples.app 50 14 Examples.current_section 3).
    { exists (mk_response 200 ""
                (inr (PDict [("current_weather",
                              PDict Examples.current_section)]))),
        [("current_weather", PDict Examples.current_section)].
      split; [reflexivity|]. split; [apply successful_200|].
      repeat split; reflexivity. }
    assert (Hf : forecast_answers
                   (shown (typed (Scenarios.at_keyboard [Line "2"]) [])
                      [Prompted days_prompt])
                   [geocode_request Examples.app "Prague";
                    current_request Examples.app 50 14]
                   Examples.app 50 14 2
                   ["2025-01-01"; "2025-01-02"] [3; 1] [10; 11] [2; 3] [0; 1]
                   [20; 15] [180; 200]).
    { exists (mk_response 200 ""
                (inr (PDict [("daily", PDict Examples.daily_section)]))),
        [("daily", PDict Examples.daily_section)], Examples.daily_section.
      split; [reflexivity|]. split; [apply successful_200|].
      repeat split; reflexivity. }
    destruct (Hasked Hpos Examples.prague_entry Examples.current_section
                50 14 3 Hg Hw) as [_ [_ Hrendered]].
    destruct (Hrendered ["2025-01-01"; "2025-01-02"] [3; 1] [10; 11] [2; 3]
                [0; 1] [20; 15] [180; 200] Hf)
      as [lines [Hrun [Hlen _]]].
    exists lines. split; assumption.
Defined.
